(** * PassCode: a row of single-character cells backed by one code array

    Shallow embedding of the [PassCode] React component (lib/main.tsx):
    its two event handlers [handleKeyDown] and [handlePaste], the focus
    helper [moveFocus] and the state established on first mount.

    JavaScript strings are sequences of UTF-16 code units, arrays are lists
    whose slots hold a string or [undefined], and the numeric position read
    from [data-index] is an integer or [NaN].  A handler is a function from
    the component state and the event to the ordered trace of effects it
    performs ([event.preventDefault()], [moveFocus(..)], [setCode(..)]). *)

From stdpp Require Import base numbers list strings.

(** ** JavaScript values used by the component *)

Module JS.

Local Open Scope Z_scope.

(** A string is a list of UTF-16 code units; [s.length] is [length s]. *)
Abbreviation jsstring := (list N).

(** An ASCII literal of the source text as a JavaScript string. *)
Definition lit (s : string) : jsstring :=
  Ascii.N_of_ascii <$> String.list_ascii_of_string s.

(** The result of [Number(..)] on a position tag: an integer or [NaN]
    ([Number(undefined)] and [Number] of unparseable text are [NaN]).
    Cells are stamped with their integer child index, so fractional and
    infinite values are left out. *)
Inductive jsnum :=
| NaN
| Int (z : Z).

#[global] Instance jsnum_eq_dec : EqDecision jsnum.
Proof. solve_decision. Defined.

Definition isNaN (n : jsnum) : bool :=
  match n with NaN => true | Int _ => false end.

(** [n === undefined] for a value of type number: never true. *)
Definition is_undefined (n : jsnum) : bool := false.

Definition add (a b : jsnum) : jsnum :=
  match a, b with
  | Int x, Int y => Int (x + y)
  | _, _ => NaN
  end.

Definition sub (a b : jsnum) : jsnum :=
  match a, b with
  | Int x, Int y => Int (x - y)
  | _, _ => NaN
  end.

(** [a > b]; any comparison with [NaN] is false. *)
Definition gt (a b : jsnum) : bool :=
  match a, b with
  | Int x, Int y => y <? x
  | _, _ => false
  end.

(** What a slot of a [string[]] holds at run time. *)
Inductive value :=
| Undefined
| Str (s : jsstring).

#[global] Instance value_eq_dec : EqDecision value.
Proof. solve_decision. Defined.

Abbreviation array := (list value).

(** [l ?? r] *)
Definition nullish (l : value) (r : jsstring) : value :=
  match l with
  | Undefined => Str r
  | Str s => Str s
  end.

(** [s[i]]: the one-unit string at code unit [i], [undefined] elsewhere. *)
Definition string_at (s : jsstring) (i : jsnum) : value :=
  match i with
  | NaN => Undefined
  | Int z =>
      if z <? 0 then Undefined
      else match s !! Z.to_nat z with
           | Some u => Str [u]
           | None => Undefined
           end
  end.

(** [s.slice(0, n)] for a count [n]. *)
Definition slice0 (s : jsstring) (n : nat) : jsstring := take n s.

Definition is_high_surrogate (u : N) : bool :=
  ((0xD800 <=? u) && (u <=? 0xDBFF))%N.

Definition is_low_surrogate (u : N) : bool :=
  ((0xDC00 <=? u) && (u <=? 0xDFFF))%N.

(** The string iterator: one item per code point, so a high surrogate
    followed by a low surrogate comes out as one two-unit string. *)
Fixpoint code_points (s : jsstring) : list jsstring :=
  match s with
  | [] => []
  | h :: t =>
      match t with
      | l :: t' =>
          if is_high_surrogate h && is_low_surrogate l
          then [h; l] :: code_points t'
          else [h] :: code_points t
      | [] => [[h]]
      end
  end.

(** [Array.from(s)] on a string. *)
Definition Array_from (s : jsstring) : array := Str <$> code_points s.

(** [Array.from({ length: n }, () => "")] *)
Definition Array_filled (n : nat) : array := replicate n (Str []).

(** [a[i] = v] on a copy of [a].  An index inside the array replaces the
    slot; an index past the end grows the array, the skipped slots reading
    [undefined]; a key that is no array index (negative, [NaN], or beyond
    2^32 - 2) only adds a named property and leaves every slot alone. *)
Definition array_set (a : array) (i : jsnum) (v : value) : array :=
  match i with
  | NaN => a
  | Int z =>
      if z <? 0 then a
      else if z <? Z.of_nat (length a) then <[Z.to_nat z := v]> a
      else if z <? 2 ^ 32 - 1
           then a ++ replicate (Z.to_nat z - length a) Undefined ++ [v]
           else a
  end.

Arguments array_set : simpl never.

(** [a.join("")]: [undefined] slots contribute nothing. *)
Fixpoint join (a : array) : jsstring :=
  match a with
  | [] => []
  | Undefined :: r => join r
  | Str s :: r => s ++ join r
  end.

End JS.
Import JS.

(** ** The component *)

(** What the caller may put between the [PassCode] tags. *)
Inductive ReactNode :=
| PassCodeInputNode
| OtherNode.

(** [PassCodeProps] (lines 32-37): children, two presentation attributes
    and the [alphanumeric] flag.  The interface declares no function
    prop. *)
Record PassCodeProps := {
  children : list ReactNode;
  className : option string;
  style : option string;
  alphanumeric : option bool;
}.

(** The two [useState] cells of [PassCode]. *)
Record state := {
  numberOfDigits : nat;
  code : array;
}.

(** First render: [useState(Children.count(children))] and
    [useState(Array.from({ length: numberOfDigits }, () => ""))]. *)
Definition mount (props : PassCodeProps) : state :=
  let numberOfDigits := length (children props) in
  {| numberOfDigits := numberOfDigits;
     code := Array_filled numberOfDigits |}.

(** The fields of a keydown event.  [target_index] is
    [Number(event.target.dataset.index)].  [ctrlKey] is on the event but
    the handler never reads it. *)
Record KeyboardEvent := {
  metaKey : bool;
  ctrlKey : bool;
  key : jsstring;
  target_index : jsnum;
}.

(** The fields of a paste event: [Number(event.target.dataset.index)] and
    [event.clipboardData.getData("text")]. *)
Record ClipboardEvent := {
  paste_index : jsnum;
  clipboardText : jsstring;
}.

(** What a handler can do to the outside, in the order it does it.
    [InvokeProp] stands for a call of a function received through props
    with a string argument. *)
Inductive effect :=
| PreventDefault
| MoveFocus (index : jsnum)
| SetCode (next : array)
| InvokeProp (arg : jsstring).

#[global] Instance effect_eq_dec : EqDecision effect.
Proof. solve_decision. Defined.

Inductive outcome :=
| Returned
| Threw (msg : string).

Record trace := {
  effects : list effect;
  result : outcome;
}.

Definition ret : trace := {| effects := []; result := Returned |}.

Definition throw (msg : string) : trace :=
  {| effects := []; result := Threw msg |}.

Definition emit (e : effect) (k : trace) : trace :=
  {| effects := e :: effects k; result := result k |}.

Declare Scope trace_scope.
Delimit Scope trace_scope with trace.
Bind Scope trace_scope with trace.
Notation "e ;; k" := (emit e k%trace)
  (at level 100, k at level 200, right associativity) : trace_scope.
Local Open Scope trace_scope.

(** The body of the functional update of the Backspace branch
    (lines 98-103). *)
Definition clear_at (index : jsnum) (prev : array) : array :=
  let next := prev in
  let next := array_set next index (Str []) in
  if gt index (Int 0) then array_set next (sub index (Int 1)) (Str [])
  else next.

(** The body of the functional update of the character branch
    (lines 106-110). *)
Definition put_at (index : jsnum) (keyPressed : jsstring) (prev : array)
  : array :=
  array_set prev index (Str keyPressed).

(** The test of line 84. *)
Definition paste_shortcut (event : KeyboardEvent) : bool :=
  metaKey event && bool_decide (key event = lit "v").

(** [handleKeyDown] (lines 82-114).  [setCode(f)] is recorded with [f]
    applied to the current code: each event is processed and rendered
    before the next one is delivered. *)
Definition handleKeyDown (st : state) (event : KeyboardEvent) : trace :=
  if metaKey event && bool_decide (key event = lit "v") then ret
  else if metaKey event then ret
  else
    PreventDefault ;;
    let index := target_index event in
    if is_undefined index
    then throw "PassCode.Input must have a data-index attribute"
    else
      let keyPressed := key event in
      let isBackspace := bool_decide (keyPressed = lit "Backspace") in
      if isBackspace then
        MoveFocus (sub index (Int 1)) ;;
        SetCode (clear_at index (code st)) ;;
        ret
      else if (length keyPressed =? 1)%nat then
        MoveFocus (add index (Int 1)) ;;
        SetCode (put_at index keyPressed (code st)) ;;
        ret
      else ret.

(** The [for] loop of lines 73-75, entered at [i]: the body runs while
    [i < numberOfDigits], that is [count] more times with
    [count = max 0 (numberOfDigits - i)]. *)
Fixpoint paste_loop (count : nat) (i index : Z) (pasted : jsstring)
  (next : array) : array :=
  match count with
  | O => next
  | S count' =>
      let next :=
        array_set next (Int i)
          (nullish (string_at pasted (sub (Int i) (Int index))) []) in
      paste_loop count' (i + 1)%Z index pasted next
  end.

(** What one round of the loop stores at position [index + j]:
    [pasted[j] ?? ""]. *)
Definition pasted_or_empty (pasted : jsstring) (j : nat) : value :=
  nullish (string_at pasted (Int (Z.of_nat j))) [].

(** [handlePaste] (lines 57-80). *)
Definition handlePaste (st : state) (event : ClipboardEvent) : trace :=
  PreventDefault ;;
  let index := paste_index event in
  if is_undefined index || isNaN index then ret
  else
    let pasted := clipboardText event in
    let length := length pasted in
    if (numberOfDigits st <=? length)%nat then
      MoveFocus (Int (Z.of_nat (numberOfDigits st) - 1)) ;;
      SetCode (Array_from (slice0 pasted (numberOfDigits st))) ;;
      ret
    else
      MoveFocus (add index (Int (Z.of_nat length))) ;;
      let next := code st in
      let next :=
        match index with
        | Int z =>
            paste_loop (Z.to_nat (Z.of_nat (numberOfDigits st) - z)) z z
              pasted next
        | NaN => next
        end in
      SetCode next ;;
      ret.

(** ** The rendered cells and focus *)

Inductive element :=
| HTMLInputElement
| HTMLOtherElement.

(** [renderChild] (lines 116-131): a [PassCodeInput] child becomes an
    [<input>]; any other child makes the render throw. *)
Definition renderChild (child : ReactNode) : option element :=
  match child with
  | PassCodeInputNode => Some HTMLInputElement
  | OtherNode => None
  end.

(** The children of the container [<div>] after a successful render. *)
Definition render (props : PassCodeProps) : option (list element) :=
  mapM renderChild (children props).

(** The page as [moveFocus] sees it: [containerRef.current] ([None] before
    the container is attached) and which of its children has focus. *)
Record dom := {
  container : option (list element);
  focused : option nat;
}.

(** [collection[index]] on an [HTMLCollection]. *)
Definition item (els : list element) (index : jsnum) : option element :=
  match index with
  | NaN => None
  | Int z => if (z <? 0)%Z then None else els !! Z.to_nat z
  end.

(** [moveFocus] (lines 49-55). *)
Definition moveFocus (index : jsnum) (d : dom) : dom :=
  match container d with
  | None => d
  | Some els =>
      match item els index, index with
      | Some HTMLInputElement, Int z =>
          {| container := container d; focused := Some (Z.to_nat z) |}
      | _, _ => d
      end
  end.

(** The component together with its page. *)
Record world := {
  comp : state;
  page : dom;
}.

Definition perform (w : world) (e : effect) : world :=
  match e with
  | PreventDefault => w
  | MoveFocus index => {| comp := comp w; page := moveFocus index (page w) |}
  | SetCode next =>
      {| comp := {| numberOfDigits := numberOfDigits (comp w); code := next |};
         page := page w |}
  | InvokeProp _ => w
  end.

Definition run (t : trace) (w : world) : world :=
  foldl perform w (effects t).

Definition onKeyDown (w : world) (event : KeyboardEvent) : world :=
  run (handleKeyDown (comp w) event) w.

Definition onPaste (w : world) (event : ClipboardEvent) : world :=
  run (handlePaste (comp w) event) w.

(** Key events delivered one after the other. *)
Definition type_keys (w : world) (events : list KeyboardEvent) : world :=
  foldl onKeyDown w events.

(** ** What a trace shows *)

Definition defaultPrevented (t : trace) : bool :=
  bool_decide (PreventDefault ∈ effects t).

Definition focus_requests (t : trace) : list jsnum :=
  omap (fun e => match e with MoveFocus i => Some i | _ => None end)
    (effects t).

Definition code_updates (t : trace) : list array :=
  omap (fun e => match e with SetCode a => Some a | _ => None end)
    (effects t).

Definition prop_calls (t : trace) : list jsstring :=
  omap (fun e => match e with InvokeProp s => Some s | _ => None end)
    (effects t).

(** The code after the event: the last [setCode], else the code as it
    was. *)
Definition next_code (st : state) (t : trace) : array :=
  default (code st) (last (code_updates t)).

(** A position is filled when it holds a non-empty string. *)
Definition filled (v : value) : bool :=
  match v with
  | Str (_ :: _) => true
  | _ => false
  end.

Definition no_empty (a : array) : bool := forallb filled a.

(** The code has one slot per digit. *)
Definition code_shape (st : state) : Prop :=
  length (code st) = numberOfDigits st.

(** The page shows the cells the component was mounted with. *)
Definition shows (d : dom) (st : state) : Prop :=
  ∀ els, container d = Some els → length els = numberOfDigits st.

(** ** Sample inputs *)

Module Samples.

(** Four cells, as in the demo page. *)
Definition cells4 : PassCodeProps :=
  {| children := replicate 4 PassCodeInputNode;
     className := None; style := None; alphanumeric := None |}.

Definition empty4 : state := mount cells4.

Definition code_12__ : state :=
  {| numberOfDigits := 4;
     code := [Str (lit "1"); Str (lit "2"); Str []; Str []] |}.

Definition code_123_ : state :=
  {| numberOfDigits := 4;
     code := [Str (lit "1"); Str (lit "2"); Str (lit "3"); Str []] |}.

Definition page4 : dom :=
  {| container := render cells4; focused := Some 0%nat |}.

Definition press (k : string) (i : Z) : KeyboardEvent :=
  {| metaKey := false; ctrlKey := false; key := lit k;
     target_index := Int i |}.

Definition press_meta (k : string) (i : Z) : KeyboardEvent :=
  {| metaKey := true; ctrlKey := false; key := lit k;
     target_index := Int i |}.

Definition press_ctrl (k : string) (i : Z) : KeyboardEvent :=
  {| metaKey := false; ctrlKey := true; key := lit k;
     target_index := Int i |}.

Definition press_untagged (k : string) : KeyboardEvent :=
  {| metaKey := false; ctrlKey := false; key := lit k;
     target_index := NaN |}.

Definition paste (text : jsstring) (i : jsnum) : ClipboardEvent :=
  {| paste_index := i; clipboardText := text |}.

(** U+1F600 as its surrogate pair. *)
Definition grinning : jsstring := [0xD83D; 0xDE00]%N.

End Samples.

(** ** Rendering the cells *)

(** A render produces something or throws. *)
Inductive except (A : Type) :=
| Value (a : A)
| Raise (msg : string).

Arguments Value {A} a.
Arguments Raise {A} msg.

(** [PassCodeContextValue] (lines 15-18). *)
Record PassCodeContextValue := {
  ctx_numberOfDigits : nat;
  ctx_alphanumeric : bool;
}.

(** [usePassCodeContext] (lines 22-30).  [None] is the [null] default of
    [createContext], which is what a component outside every provider
    reads. *)
Definition usePassCodeContext (context : option PassCodeContextValue)
  : except PassCodeContextValue :=
  match context with
  | None =>
      Raise "usePassCodeContext must be used within a PassCode component"
  | Some context => Value context
  end.

(** [a[i]] as a read: [undefined] past the end. *)
Definition read (a : array) (i : nat) : value := default Undefined (a !! i).

(** The props [renderChild] stamps on a cell (lines 147-154, without the
    two presentation attributes).  The handler fields say whether the
    handler of the enclosing [PassCode] was passed. *)
Record PassCodeInputProps := {
  cell_index : option nat;
  cell_value : value;
  cell_onKeyDown : bool;
  cell_onPaste : bool;
}.

(** The [<input>] a cell renders (lines 166-180), without its constant
    attributes other than [maxLength]. *)
Record input := {
  maxLength : nat;
  inputMode : string;
  input_value : value;
  data_index : option nat;
  input_onKeyDown : bool;
  input_onPaste : bool;
}.

(** [PassCodeInput] (lines 156-182). *)
Definition PassCodeInput (context : option PassCodeContextValue)
  (props : PassCodeInputProps) : except input :=
  match usePassCodeContext context with
  | Raise msg => Raise msg
  | Value context =>
      Value {| maxLength := 1;
               inputMode :=
                 if ctx_alphanumeric context then "text" else "numeric";
               input_value := cell_value props;
               data_index := cell_index props;
               input_onKeyDown := cell_onKeyDown props;
               input_onPaste := cell_onPaste props |}
  end.

(** [renderChild] with the props it passes to [cloneElement]
    (lines 116-131).  [OtherNode] is any child whose type is not
    [PassCodeInput] (an element of another type, a string, a number); empty
    children ([null], booleans), on which line 119 fails before this test
    is reached, are not modelled. *)
Definition renderChildAt (st : state) (child : ReactNode) (index : nat)
  : except PassCodeInputProps :=
  match child with
  | OtherNode => Raise "PassCode children must be PassCode.Input components"
  | PassCodeInputNode =>
      Value {| cell_index := Some index;
               cell_value := read (code st) index;
               cell_onKeyDown := true;
               cell_onPaste := true |}
  end.

(** [Children.map(children, renderChild)], the children numbered from
    [index] on. *)
Fixpoint Children_map (st : state) (children : list ReactNode) (index : nat)
  : except (list PassCodeInputProps) :=
  match children with
  | [] => Value []
  | child :: rest =>
      match renderChildAt st child index with
      | Raise msg => Raise msg
      | Value cell =>
          match Children_map st rest (S index) with
          | Raise msg => Raise msg
          | Value cells => Value (cell :: cells)
          end
      end
  end.

(** The cells rendered below the provider. *)
Fixpoint render_cells (context : option PassCodeContextValue)
  (cells : list PassCodeInputProps) : except (list input) :=
  match cells with
  | [] => Value []
  | cell :: rest =>
      match PassCodeInput context cell with
      | Raise msg => Raise msg
      | Value el =>
          match render_cells context rest with
          | Raise msg => Raise msg
          | Value els => Value (el :: els)
          end
      end
  end.

(** What [PassCode] returns (lines 133-144): the provider, with
    [alphanumeric] defaulting to [true] (line 40), around the mapped
    children. *)
Definition PassCode_render (props : PassCodeProps) (st : state)
  : except (list input) :=
  let context :=
    {| ctx_numberOfDigits := numberOfDigits st;
       ctx_alphanumeric := default true (alphanumeric props) |} in
  match Children_map st (children props) 0 with
  | Raise msg => Raise msg
  | Value cells => render_cells (Some context) cells
  end.

(** [Number(event.target.dataset.index)] for an event raised on a rendered
    cell. *)
Definition dataset_index (el : input) : jsnum :=
  match data_index el with
  | Some i => Int (Z.of_nat i)
  | None => NaN
  end.

Definition keydown_on (el : input) (meta ctrl : bool) (k : jsstring)
  : KeyboardEvent :=
  {| metaKey := meta; ctrlKey := ctrl; key := k;
     target_index := dataset_index el |}.

Definition paste_on (el : input) (text : jsstring) : ClipboardEvent :=
  {| paste_index := dataset_index el; clipboardText := text |}.

(** ** Event sequences *)

Inductive input_event :=
| KeyDown (event : KeyboardEvent)
| Paste (event : ClipboardEvent).

Definition deliver (w : world) (ev : input_event) : world :=
  match ev with
  | KeyDown event => onKeyDown w event
  | Paste event => onPaste w event
  end.

Definition deliver_all (w : world) (evs : list input_event) : world :=
  foldl deliver w evs.

(** A position tag that names one of [n] cells, or none at all. *)
Definition in_range (n : nat) (i : jsnum) : bool :=
  match i with
  | NaN => true
  | Int z => (0 <=? z)%Z && (z <? Z.of_nat n)%Z
  end.

(** An event as the wired-up cells raise it on ordinary text: the tag is in
    range, and a paste that fills all [n] cells has no high surrogate among
    its first [n] code units. *)
Definition tame (n : nat) (ev : input_event) : bool :=
  match ev with
  | KeyDown event => in_range n (target_index event)
  | Paste event =>
      in_range n (paste_index event)
      && ((length (clipboardText event) <? n)%nat
          || forallb (λ u, negb (is_high_surrogate u))
               (take n (clipboardText event)))
  end.

(** A slot holding a string of at most one code unit. *)
Definition single (v : value) : bool :=
  match v with
  | Str [] | Str [_] => true
  | _ => false
  end.

(** One slot per digit, each a string of at most one code unit. *)
Definition cells_ok (st : state) : Prop :=
  code_shape st ∧ Forall (λ v, single v = true) (code st).

(** The page holds exactly the mounted cells. *)
Definition mounted (d : dom) (st : state) : Prop :=
  container d = Some (replicate (numberOfDigits st) HTMLInputElement).

(** The keys [ks] typed one per cell, from cell [i] on. *)
Fixpoint keys_from (i : nat) (ks : list jsstring) : list KeyboardEvent :=
  match ks with
  | [] => []
  | k :: rest =>
      {| metaKey := false; ctrlKey := false; key := k;
         target_index := Int (Z.of_nat i) |} :: keys_from (S i) rest
  end.

(** What every event leaves alone, and where the focus may go. *)
Definition same_frame (w w' : world) : Prop :=
  numberOfDigits (comp w') = numberOfDigits (comp w)
  ∧ container (page w') = container (page w)
  ∧ ∀ j, focused (page w') = Some j →
         focused (page w) = Some j
         ∨ ∃ els, container (page w) = Some els
                  ∧ els !! j = Some HTMLInputElement.

(** ** More sample inputs *)

Module Cases.

Definition world_empty : world :=
  {| comp := Samples.empty4; page := Samples.page4 |}.

Definition world_12__ : world :=
  {| comp := Samples.code_12__; page := Samples.page4 |}.

Definition world_1___ : world :=
  {| comp := {| numberOfDigits := 4;
                code := [Str (lit "1"); Str []; Str []; Str []] |};
     page := Samples.page4 |}.

Definition numeric4 : PassCodeProps :=
  {| children := replicate 4 PassCodeInputNode;
     className := None; style := None; alphanumeric := Some false |}.

Definition cells5 : PassCodeProps :=
  {| children := replicate 5 PassCodeInputNode;
     className := None; style := None; alphanumeric := None |}.



(** The [<input>] of cell [i] showing [v]. *)
Definition text_input (i : nat) (v : value) : input :=
  {| maxLength := 1; inputMode := "text"; input_value := v;
     data_index := Some i; input_onKeyDown := true; input_onPaste := true |}.

Definition session : list input_event :=
  [KeyDown (Samples.press "1" 0);
   Paste (Samples.paste (lit "23") (Int 1));
   KeyDown (Samples.press "Backspace" 2);
   Paste (Samples.paste (lit "98765") (Int 3));
   KeyDown (Samples.press_untagged "x")].

End Cases.

(** Closes [x ∉ l] for an explicit list [l] of other constructors. *)
Ltac not_listed :=
  simpl;
  let H := fresh in
  intros H;
  repeat (apply elem_of_cons in H as [H|H]; [discriminate H|]);
  by apply elem_of_nil in H.

(** ** Array writes *)

Section array_set.
Context (a : array) (v : value).

Lemma array_set_inside (i : nat) :
  (i < length a)%nat → array_set a (Int (Z.of_nat i)) v = <[i := v]> a.
Proof.
  intros Hi. unfold array_set.
  destruct (Z.ltb_spec (Z.of_nat i) 0) as [?|_]; [lia|].
  destruct (Z.ltb_spec (Z.of_nat i) (Z.of_nat (length a))) as [_|?]; [|lia].
  by rewrite Nat2Z.id.
Qed.

Lemma array_set_negative (z : Z) : (z < 0)%Z → array_set a (Int z) v = a.
Proof.
  intros Hz. unfold array_set.
  by destruct (Z.ltb_spec z 0) as [_|?]; [|lia].
Qed.

Lemma array_set_NaN : array_set a NaN v = a.
Proof. done. Qed.

Lemma array_set_length (i : nat) :
  (i < length a)%nat → length (array_set a (Int (Z.of_nat i)) v) = length a.
Proof. intros Hi. by rewrite array_set_inside, length_insert. Qed.

Lemma array_set_lookup (i : nat) :
  (i < length a)%nat → array_set a (Int (Z.of_nat i)) v !! i = Some v.
Proof. intros Hi. rewrite array_set_inside by done. by apply list_lookup_insert_eq. Qed.

Lemma array_set_lookup_ne (i k : nat) :
  (i < length a)%nat → i ≠ k → array_set a (Int (Z.of_nat i)) v !! k = a !! k.
Proof. intros Hi Hk. rewrite array_set_inside by done. by apply list_lookup_insert_ne. Qed.

End array_set.

(** ** The paste loop *)

Lemma string_at_inside (s : jsstring) (j : nat) (u : N) :
  s !! j = Some u → string_at s (Int (Z.of_nat j)) = Str [u].
Proof.
  intros Hj. unfold string_at.
  destruct (Z.ltb_spec (Z.of_nat j) 0) as [?|_]; [lia|].
  by rewrite Nat2Z.id, Hj.
Qed.

Lemma string_at_outside (s : jsstring) (j : nat) :
  (length s ≤ j)%nat → string_at s (Int (Z.of_nat j)) = Undefined.
Proof.
  intros Hj. unfold string_at.
  destruct (Z.ltb_spec (Z.of_nat j) 0) as [?|_]; [lia|].
  by rewrite Nat2Z.id, lookup_ge_None_2.
Qed.

Lemma paste_loop_spec (pasted : jsstring) (index : nat) :
  ∀ (count i : nat) (next : array),
    (index ≤ i)%nat →
    (i + count = length next)%nat →
    let next' :=
      paste_loop count (Z.of_nat i) (Z.of_nat index) pasted next in
    length next' = length next ∧
    (∀ k, (k < i)%nat → next' !! k = next !! k) ∧
    (∀ k, (i ≤ k < length next)%nat →
          next' !! k = Some (pasted_or_empty pasted (k - index))).
Proof.
  induction count as [|count IH]; intros i next Hle Hlen; simpl.
  - split; [done|]. split; [done|]. intros k ?; lia.
  - assert (Hi : (i < length next)%nat) by lia.
    replace (Z.of_nat i + 1)%Z with (Z.of_nat (S i)) by lia.
    replace (Z.of_nat i - Z.of_nat index)%Z with (Z.of_nat (i - index)) by lia.
    set (w := nullish _ _).
    destruct (IH (S i) (array_set next (Int (Z.of_nat i)) w)) as (Hl & Hlo & Hhi).
    { lia. }
    { rewrite array_set_length by done. lia. }
    rewrite array_set_length in Hl, Hhi by done.
    split; [done|]. split.
    + intros k Hk. rewrite Hlo by lia. apply array_set_lookup_ne; [done|lia].
    + intros k Hk. destruct (decide (k = i)) as [->|Hne].
      * rewrite Hlo by lia. by rewrite array_set_lookup.
      * apply Hhi. lia.
Qed.

Lemma code_points_cons (h l : N) (t : jsstring) :
  code_points (h :: l :: t) =
    if is_high_surrogate h && is_low_surrogate l
    then [h; l] :: code_points t
    else [h] :: code_points (l :: t).
Proof. reflexivity. Qed.

Lemma code_points_no_high (s : jsstring) :
  Forall (λ u, is_high_surrogate u = false) s →
  code_points s = (λ u, [u]) <$> s.
Proof.
  induction 1 as [|h t Hh Ht IH]; [done|].
  destruct t as [|l t']; [done|].
  rewrite code_points_cons, Hh, IH. done.
Qed.

Lemma Array_from_no_high (s : jsstring) :
  Forall (λ u, is_high_surrogate u = false) s →
  Array_from s = (λ u, Str [u]) <$> s.
Proof.
  intros Hs. unfold Array_from. rewrite code_points_no_high by done.
  by rewrite <- list_fmap_compose.
Qed.

Lemma handlePaste_full_trace (st : state) (event : ClipboardEvent) (z : Z) :
  paste_index event = Int z →
  (numberOfDigits st ≤ length (clipboardText event))%nat →
  handlePaste st event =
    (PreventDefault ;;
     MoveFocus (Int (Z.of_nat (numberOfDigits st) - 1)) ;;
     SetCode (Array_from (slice0 (clipboardText event) (numberOfDigits st))) ;;
     ret).
Proof.
  intros Hi Hlen. unfold handlePaste. rewrite Hi. simpl.
  by destruct (Nat.leb_spec (numberOfDigits st) (length (clipboardText event))); [|lia].
Qed.

Lemma handlePaste_full_no_surrogate
  (st : state) (event : ClipboardEvent) (z : Z) :
  paste_index event = Int z →
  (numberOfDigits st ≤ length (clipboardText event))%nat →
  Forall (λ u, is_high_surrogate u = false)
    (take (numberOfDigits st) (clipboardText event)) →
  let t := handlePaste st event in
  next_code st t = (λ u, Str [u]) <$> take (numberOfDigits st) (clipboardText event)
  ∧ length (next_code st t) = numberOfDigits st
  ∧ focus_requests t = [Int (Z.of_nat (numberOfDigits st) - 1)].
Proof.
  intros Hi Hlen Hs t. subst t.
  rewrite (handlePaste_full_trace st event z) by done.
  unfold next_code; simpl. unfold slice0. rewrite Array_from_no_high by done.
  split; [done|]. split; [|done].
  rewrite length_fmap, length_take. lia.
Qed.

Lemma handlePaste_partial_trace (st : state) (event : ClipboardEvent) (z : Z) :
  paste_index event = Int z →
  (length (clipboardText event) < numberOfDigits st)%nat →
  handlePaste st event =
    (PreventDefault ;;
     MoveFocus (Int (z + Z.of_nat (length (clipboardText event)))) ;;
     SetCode (paste_loop (Z.to_nat (Z.of_nat (numberOfDigits st) - z)) z z
                (clipboardText event) (code st)) ;;
     ret).
Proof.
  intros Hi Hlen. unfold handlePaste. rewrite Hi. simpl.
  by destruct (Nat.leb_spec (numberOfDigits st) (length (clipboardText event))); [lia|].
Qed.

(** C4: a paste of L < N code units at position i writes the pasted
    characters, in order, into positions i, i+1, ... (position i+j gets
    character j, as far as the cells reach), clears every position from i+L
    to N-1 to the empty string, leaves positions 0..i-1 as they were, keeps
    the code at N slots and requests focus on position i+L. *)
Theorem handlePaste_partial (st : state) (event : ClipboardEvent) (i : nat) :
  code_shape st →
  paste_index event = Int (Z.of_nat i) →
  (i < numberOfDigits st)%nat →
  (length (clipboardText event) < numberOfDigits st)%nat →
  let pasted := clipboardText event in
  let t := handlePaste st event in
  let code' := next_code st t in
  (∀ j u, pasted !! j = Some u → (i + j < numberOfDigits st)%nat →
          code' !! (i + j)%nat = Some (Str [u]))
  ∧ (∀ k, (i + length pasted ≤ k < numberOfDigits st)%nat →
          code' !! k = Some (Str []))
  ∧ (∀ k, (k < i)%nat → code' !! k = code st !! k)
  ∧ length code' = numberOfDigits st
  ∧ focus_requests t = [Int (Z.of_nat (i + length pasted))]
  ∧ result t = Returned.
Proof.
  intros Hshape Hi Hpos Hlen pasted t code'. subst t code' pasted.
  unfold code_shape in Hshape.
  rewrite (handlePaste_partial_trace st event (Z.of_nat i)) by done.
  unfold next_code, focus_requests; simpl.
  replace (Z.to_nat (Z.of_nat (numberOfDigits st) - Z.of_nat i))
    with (numberOfDigits st - i)%nat by lia.
  destruct (paste_loop_spec (clipboardText event) i
              (numberOfDigits st - i) i (code st)) as (Hl & Hlo & Hhi);
    [lia | lia |].
  rewrite Hshape in Hl, Hhi.
  repeat split.
  - intros j u Hj Hin. rewrite Hhi by lia.
    replace (i + j - i)%nat with j by lia.
    unfold pasted_or_empty. by rewrite (string_at_inside _ _ u).
  - intros k Hk. rewrite Hhi by lia.
    unfold pasted_or_empty. rewrite string_at_outside by lia. done.
  - intros k Hk. by apply Hlo.
  - done.
  - do 2 f_equal. lia.
Qed.

(** ** Key events *)

Lemma handleKeyDown_meta (st : state) (event : KeyboardEvent) :
  metaKey event = true → handleKeyDown st event = ret.
Proof.
  intros Hm. unfold handleKeyDown. rewrite Hm.
  by destruct (bool_decide _).
Qed.

Lemma handleKeyDown_plain (st : state) (event : KeyboardEvent) :
  metaKey event = false →
  handleKeyDown st event =
    (PreventDefault ;;
     if bool_decide (key event = lit "Backspace") then
       MoveFocus (sub (target_index event) (Int 1)) ;;
       SetCode (clear_at (target_index event) (code st)) ;;
       ret
     else if (length (key event) =? 1)%nat then
       MoveFocus (add (target_index event) (Int 1)) ;;
       SetCode (put_at (target_index event) (key event) (code st)) ;;
       ret
     else ret).
Proof. intros Hm. unfold handleKeyDown. by rewrite Hm. Qed.

Lemma handleKeyDown_backspace (st : state) (event : KeyboardEvent) :
  metaKey event = false →
  key event = lit "Backspace" →
  handleKeyDown st event =
    (PreventDefault ;;
     MoveFocus (sub (target_index event) (Int 1)) ;;
     SetCode (clear_at (target_index event) (code st)) ;;
     ret).
Proof.
  intros Hm Hk. rewrite handleKeyDown_plain by done.
  by rewrite bool_decide_eq_true_2.
Qed.

Lemma handleKeyDown_char (st : state) (event : KeyboardEvent) :
  metaKey event = false →
  length (key event) = 1%nat →
  handleKeyDown st event =
    (PreventDefault ;;
     MoveFocus (add (target_index event) (Int 1)) ;;
     SetCode (put_at (target_index event) (key event) (code st)) ;;
     ret).
Proof.
  intros Hm Hk. rewrite handleKeyDown_plain by done.
  rewrite bool_decide_eq_false_2.
  - by rewrite Hk.
  - intros Heq. by rewrite Heq in Hk.
Qed.

(** C5, amended: a key event with the meta modifier up whose key is exactly
    one character, delivered at position i, whatever the code held before,
    puts that character at position i, leaves every other position
    unchanged and requests focus on position i+1. *)
Theorem handleKeyDown_sets_character
  (st : state) (event : KeyboardEvent) (i : nat) :
  code_shape st →
  metaKey event = false →
  length (key event) = 1%nat →
  target_index event = Int (Z.of_nat i) →
  (i < numberOfDigits st)%nat →
  let t := handleKeyDown st event in
  let code' := next_code st t in
  code' !! i = Some (Str (key event))
  ∧ (∀ k, k ≠ i → code' !! k = code st !! k)
  ∧ length code' = numberOfDigits st
  ∧ focus_requests t = [Int (Z.of_nat i + 1)].
Proof.
  intros Hshape Hm Hk Hi Hpos t code'. subst t code'.
  unfold code_shape in Hshape.
  rewrite handleKeyDown_char by done. rewrite Hi.
  unfold next_code, focus_requests, put_at; simpl.
  split; [apply array_set_lookup; lia|].
  split; [intros k Hne; apply array_set_lookup_ne; [lia|done]|].
  split; [rewrite array_set_length; lia|done].
Qed.

Lemma clear_at_positive (i : nat) (prev : array) :
  (0 < i < length prev)%nat →
  clear_at (Int (Z.of_nat i)) prev = <[(i - 1)%nat := Str []]> (<[i := Str []]> prev).
Proof.
  intros Hi. unfold clear_at. simpl.
  destruct (Z.ltb_spec 0 (Z.of_nat i)) as [_|?]; [|lia].
  rewrite (array_set_inside prev) by lia.
  replace (Z.of_nat i - 1)%Z with (Z.of_nat (i - 1)) by lia.
  rewrite array_set_inside; [done|]. rewrite length_insert. lia.
Qed.

Lemma clear_at_zero (prev : array) :
  (0 < length prev)%nat → clear_at (Int 0) prev = <[0%nat := Str []]> prev.
Proof.
  intros Hlen. unfold clear_at. simpl.
  by rewrite (array_set_inside prev _ 0).
Qed.

(** C6, amended: a Backspace key event with the meta modifier up at
    position i clears position i; for i > 0 it also clears position i-1
    and all positions other than i and i-1 stay unchanged; at position 0
    only position 0 is cleared.  The focus request goes to i-1. *)
Theorem handleKeyDown_backspace_clears
  (st : state) (event : KeyboardEvent) (i : nat) :
  code_shape st →
  metaKey event = false →
  key event = lit "Backspace" →
  target_index event = Int (Z.of_nat i) →
  (i < numberOfDigits st)%nat →
  let t := handleKeyDown st event in
  let code' := next_code st t in
  code' !! i = Some (Str [])
  ∧ ((0 < i)%nat →
       code' !! (i - 1)%nat = Some (Str [])
       ∧ (∀ k, k ≠ i → k ≠ (i - 1)%nat → code' !! k = code st !! k))
  ∧ (i = 0%nat → ∀ k, k ≠ 0%nat → code' !! k = code st !! k)
  ∧ length code' = numberOfDigits st
  ∧ focus_requests t = [Int (Z.of_nat i - 1)].
Proof.
  intros Hshape Hm Hk Hi Hpos t code'. subst t code'.
  unfold code_shape in Hshape.
  rewrite handleKeyDown_backspace by done. rewrite Hi.
  unfold next_code, focus_requests; simpl.
  destruct i as [|i].
  - change (Z.of_nat 0) with 0%Z. rewrite clear_at_zero by lia.
    split; [apply list_lookup_insert_eq; lia|].
    split; [lia|].
    split; [intros _ k Hne; by apply list_lookup_insert_ne|].
    split; [by rewrite length_insert|done].
  - rewrite clear_at_positive by lia.
    replace (S i - 1)%nat with i by lia.
    split.
    { rewrite list_lookup_insert_ne by lia. apply list_lookup_insert_eq; lia. }
    split.
    { intros _. split.
      - apply list_lookup_insert_eq. rewrite length_insert. lia.
      - intros k Hne1 Hne2. by rewrite !list_lookup_insert_ne. }
    split; [done|].
    split; [by rewrite !length_insert|done].
Qed.

(** ** Focus *)

Lemma item_outside (els : list element) (z : Z) :
  (z < 0 ∨ Z.of_nat (length els) ≤ z)%Z → item els (Int z) = None.
Proof.
  intros Hz. unfold item.
  destruct (Z.ltb_spec z 0) as [?|?]; [done|].
  apply lookup_ge_None_2. lia.
Qed.

Lemma moveFocus_NaN (d : dom) : moveFocus NaN d = d.
Proof. unfold moveFocus. by destruct (container d). Qed.

Lemma moveFocus_beyond (st : state) (d : dom) (z : Z) :
  shows d st →
  (z < 0 ∨ Z.of_nat (numberOfDigits st) ≤ z)%Z →
  moveFocus (Int z) d = d.
Proof.
  intros Hshows Hz. unfold moveFocus.
  destruct (container d) as [els|] eqn:Hc; [|done].
  rewrite item_outside; [done|].
  by rewrite (Hshows els Hc).
Qed.

(** C9: a focus request for a position outside 0..N-1 changes nothing on
    the page: no cell receives focus, and [moveFocus], a total function,
    has no way to fail.  This covers -1 (Backspace in the first cell) and
    N (typing in the last cell). *)
Theorem moveFocus_outside_is_noop (st : state) (d : dom) (z : Z) :
  shows d st →
  (z < 0 ∨ Z.of_nat (numberOfDigits st) ≤ z)%Z →
  moveFocus (Int z) d = d.
Proof. intros Hshows Hz. by apply (moveFocus_beyond st). Qed.

Lemma moveFocus_outside_is_noop_witness :
  shows Samples.page4 Samples.empty4
  ∧ moveFocus (Int (-1)) Samples.page4 = Samples.page4
  ∧ moveFocus (Int 4) Samples.page4 = Samples.page4.
Proof.
  assert (H : shows Samples.page4 Samples.empty4).
  { intros els [= <-]. reflexivity. }
  split; [exact H|].
  split.
  - apply (moveFocus_outside_is_noop Samples.empty4 Samples.page4 (-1) H).
    left. lia.
  - apply (moveFocus_outside_is_noop Samples.empty4 Samples.page4 4 H).
    right. simpl. lia.
Defined.

(** Inside the range the cell does receive focus. *)
Lemma moveFocus_inside (d : dom) (els : list element) (i : nat) :
  container d = Some els →
  els !! i = Some HTMLInputElement →
  focused (moveFocus (Int (Z.of_nat i)) d) = Some i.
Proof.
  intros Hc Hi. unfold moveFocus, item. rewrite Hc.
  destruct (Z.ltb_spec (Z.of_nat i) 0) as [?|_]; [lia|].
  rewrite Nat2Z.id, Hi. done.
Qed.

(** Backspace in the first cell asks for position -1 and typing in the
    last cell asks for position N; either way the focus stays put. *)
Lemma backspace_in_first_cell_keeps_focus (w : world) (event : KeyboardEvent) :
  shows (page w) (comp w) →
  metaKey event = false →
  key event = lit "Backspace" →
  target_index event = Int 0 →
  focus_requests (handleKeyDown (comp w) event) = [Int (-1)]
  ∧ page (onKeyDown w event) = page w.
Proof.
  intros Hshows Hm Hk Hi. unfold onKeyDown.
  rewrite handleKeyDown_backspace by done. rewrite Hi.
  split; [done|]. unfold run; simpl.
  apply (moveFocus_beyond (comp w)); [done|lia].
Qed.

Lemma typing_in_last_cell_keeps_focus (w : world) (event : KeyboardEvent) :
  shows (page w) (comp w) →
  metaKey event = false →
  length (key event) = 1%nat →
  target_index event = Int (Z.of_nat (numberOfDigits (comp w)) - 1) →
  focus_requests (handleKeyDown (comp w) event)
    = [Int (Z.of_nat (numberOfDigits (comp w)))]
  ∧ page (onKeyDown w event) = page w.
Proof.
  intros Hshows Hm Hk Hi. unfold onKeyDown.
  rewrite handleKeyDown_char by done. rewrite Hi.
  replace (add (Int (Z.of_nat (numberOfDigits (comp w)) - 1)) (Int 1))
    with (Int (Z.of_nat (numberOfDigits (comp w))))
    by (simpl; f_equal; lia).
  split; [done|]. unfold run; simpl.
  apply (moveFocus_beyond (comp w)); [done|lia].
Qed.

(** ** Events that change nothing *)

Lemma run_ret (w : world) : run ret w = w.
Proof. done. Qed.

Lemma set_same_code (w : world) :
  {| comp := {| numberOfDigits := numberOfDigits (comp w);
                code := code (comp w) |};
     page := page w |} = w.
Proof. by destruct w as [[] ?]. Qed.

Lemma clear_at_NaN (prev : array) : clear_at NaN prev = prev.
Proof. done. Qed.

Lemma put_at_NaN (k : jsstring) (prev : array) : put_at NaN k prev = prev.
Proof. done. Qed.

Lemma onKeyDown_NaN (w : world) (event : KeyboardEvent) :
  target_index event = NaN →
  onKeyDown w event = w ∧ result (handleKeyDown (comp w) event) = Returned.
Proof.
  intros Hi. unfold onKeyDown.
  destruct (metaKey event) eqn:Hm.
  { by rewrite handleKeyDown_meta. }
  rewrite handleKeyDown_plain by done. rewrite Hi.
  destruct (bool_decide _); [|destruct (_ =? _)%nat]; unfold run; simpl;
    rewrite ?moveFocus_NaN, ?clear_at_NaN, ?put_at_NaN;
    split; try done; apply set_same_code.
Qed.

Lemma onPaste_NaN (w : world) (event : ClipboardEvent) :
  paste_index event = NaN →
  onPaste w event = w ∧ handlePaste (comp w) event = (PreventDefault ;; ret).
Proof.
  intros Hi. unfold onPaste, handlePaste. rewrite Hi. done.
Qed.

(** C8: an event whose position tag is missing or does not parse as a
    number (so that [Number(..)] is [NaN]) is a no-op for both handlers:
    the code and the page stay as they were and the handler returns
    without throwing. *)
Theorem malformed_index_is_noop
  (w : world) (kev : KeyboardEvent) (pev : ClipboardEvent) :
  target_index kev = NaN →
  paste_index pev = NaN →
  (onKeyDown w kev = w ∧ result (handleKeyDown (comp w) kev) = Returned)
  ∧ (onPaste w pev = w ∧ result (handlePaste (comp w) pev) = Returned).
Proof.
  intros Hk Hp. split; [by apply onKeyDown_NaN|].
  destruct (onPaste_NaN w pev Hp) as [Hw Ht].
  split; [done|]. by rewrite Ht.
Qed.

Lemma malformed_index_is_noop_witness :
  let w := {| comp := Samples.code_12__; page := Samples.page4 |} in
  (onKeyDown w (Samples.press_untagged "7") = w
   ∧ result (handleKeyDown (comp w) (Samples.press_untagged "7")) = Returned)
  ∧ (onPaste w (Samples.paste (lit "99") NaN) = w
     ∧ result (handlePaste (comp w) (Samples.paste (lit "99") NaN))
       = Returned).
Proof.
  intros w.
  apply (malformed_index_is_noop w (Samples.press_untagged "7")
           (Samples.paste (lit "99") NaN)); reflexivity.
Defined.

(** C10: with the meta modifier held, whatever the key, the handler
    returns at once: it performs no effect at all, so the code is
    unchanged, no focus move is requested and the default action is not
    suppressed. *)
Theorem handleKeyDown_meta_ignored (w : world) (event : KeyboardEvent) :
  metaKey event = true →
  let t := handleKeyDown (comp w) event in
  effects t = [] ∧ result t = Returned
  ∧ next_code (comp w) t = code (comp w)
  ∧ focus_requests t = []
  ∧ defaultPrevented t = false
  ∧ onKeyDown w event = w.
Proof.
  intros Hm t. subst t. unfold onKeyDown.
  rewrite handleKeyDown_meta by done. done.
Qed.

Lemma handleKeyDown_meta_ignored_witness :
  let w := {| comp := Samples.code_12__; page := Samples.page4 |} in
  let t := handleKeyDown (comp w) (Samples.press_meta "Backspace" 1) in
  effects t = [] ∧ result t = Returned
  ∧ next_code (comp w) t = code (comp w)
  ∧ focus_requests t = []
  ∧ defaultPrevented t = false
  ∧ onKeyDown w (Samples.press_meta "Backspace" 1) = w.
Proof.
  intros w.
  apply (handleKeyDown_meta_ignored w (Samples.press_meta "Backspace" 1)).
  reflexivity.
Defined.

(** ** The modifier guard of [handleKeyDown] *)

(** C2, as stated, fails: Meta+A is not the paste shortcut, yet the
    handler leaves its default action alone. *)
Lemma handleKeyDown_meta_a_not_suppressed :
  let event := Samples.press_meta "a" 0 in
  paste_shortcut event = false
  ∧ defaultPrevented (handleKeyDown Samples.empty4 event) = false.
Proof. split; reflexivity. Qed.

(** C2, amended: the handler ignores the event entirely (no effect at
    all, default action untouched) whenever the meta modifier is held,
    which includes the paste shortcut Meta+V; with neither the meta nor
    the control modifier held, suppressing the default action is the first
    thing it does, before it looks at the key. *)
Theorem handleKeyDown_modifier_guard (st : state) (event : KeyboardEvent) :
  let t := handleKeyDown st event in
  (paste_shortcut event = true → effects t = [] ∧ result t = Returned)
  ∧ (metaKey event = true → effects t = [] ∧ result t = Returned)
  ∧ (metaKey event = false → ctrlKey event = false →
     ∃ rest, effects t = PreventDefault :: rest
             ∧ (PreventDefault ∉ rest)
             ∧ defaultPrevented t = true).
Proof.
  intros t. subst t. split; [|split].
  - intros Hp. unfold paste_shortcut in Hp.
    apply andb_true_iff in Hp as [Hm _].
    by rewrite handleKeyDown_meta.
  - intros Hm. by rewrite handleKeyDown_meta.
  - intros Hm _. rewrite handleKeyDown_plain by done.
    destruct (bool_decide _); [|destruct (_ =? _)%nat];
      (eexists; split; [reflexivity|]; split; [|done]);
      not_listed.
Qed.

Lemma handleKeyDown_modifier_guard_witness :
  (effects (handleKeyDown Samples.code_12__ (Samples.press_meta "v" 2)) = []
   ∧ result (handleKeyDown Samples.code_12__ (Samples.press_meta "v" 2))
     = Returned)
  ∧ (effects (handleKeyDown Samples.code_12__ (Samples.press_meta "a" 2)) = []
     ∧ result (handleKeyDown Samples.code_12__ (Samples.press_meta "a" 2))
       = Returned)
  ∧ (∃ rest,
       effects (handleKeyDown Samples.code_12__ (Samples.press "3" 2))
         = PreventDefault :: rest
       ∧ (PreventDefault ∉ rest)
       ∧ defaultPrevented (handleKeyDown Samples.code_12__ (Samples.press "3" 2))
         = true).
Proof.
  split; [|split].
  - apply (handleKeyDown_modifier_guard Samples.code_12__
             (Samples.press_meta "v" 2)). reflexivity.
  - apply (handleKeyDown_modifier_guard Samples.code_12__
             (Samples.press_meta "a" 2)). reflexivity.
  - apply (handleKeyDown_modifier_guard Samples.code_12__
             (Samples.press "3" 2)); reflexivity.
Defined.

(** Control+V with meta up takes the character branch: the default action
    is suppressed and "v" is stored. *)
Example handleKeyDown_ctrl_v :
  handleKeyDown Samples.empty4 (Samples.press_ctrl "v" 0) =
    (PreventDefault ;;
     MoveFocus (Int 1) ;;
     SetCode [Str (lit "v"); Str []; Str []; Str []] ;;
     ret).
Proof. reflexivity. Qed.

(** ** No completion callback *)

(** C1, as stated, fails: typing "4" into the last cell of 1 2 3 _ fills
    the code, and nothing is called with "1234". *)
Lemma filling_last_cell_calls_nothing :
  let t := handleKeyDown Samples.code_123_ (Samples.press "4" 3) in
  let code' := next_code Samples.code_123_ t in
  no_empty (code Samples.code_123_) = false
  ∧ no_empty code' = true
  ∧ join code' = lit "1234"
  ∧ (InvokeProp (join code') ∉ effects t).
Proof.
  split; [reflexivity|]. split; [reflexivity|]. split; [reflexivity|].
  not_listed.
Qed.

(** C1, amended: the component takes no completion callback, and neither
    handler, on any event and whether or not the resulting code is full,
    calls a function supplied by the caller; what a handler does is limited
    to suppressing the default action, requesting a focus move and
    replacing the code. *)
Theorem handlers_call_no_prop (st : state) :
  (∀ event, prop_calls (handleKeyDown st event) = [])
  ∧ (∀ event, prop_calls (handlePaste st event) = []).
Proof.
  split; intros event.
  - unfold handleKeyDown.
    destruct (metaKey event); simpl.
    + by destruct (bool_decide _).
    + by destruct (bool_decide _); [|destruct (_ =? _)%nat].
  - unfold handlePaste.
    destruct (paste_index event); simpl; [done|].
    by destruct (_ <=? _)%nat.
Qed.

(** ** Witnesses and counterexamples for the handlers *)

Lemma handlePaste_partial_witness :
  let st := Samples.code_12__ in
  let event := Samples.paste (lit "78") (Int 1) in
  let code' := next_code st (handlePaste st event) in
  code_shape st
  ∧ code' = [Str (lit "1"); Str (lit "7"); Str (lit "8"); Str []]
  ∧ (∀ k, (1 + 2 ≤ k < 4)%nat → code' !! k = Some (Str []))
  ∧ (∀ k, (k < 1)%nat → code' !! k = code st !! k)
  ∧ focus_requests (handlePaste st event) = [Int 3].
Proof.
  intros st event code'.
  assert (Hshape : code_shape st) by reflexivity.
  destruct (handlePaste_partial st event 1 Hshape)
    as (_ & Hclear & Hkeep & _ & Hfocus & _);
    [reflexivity | simpl; lia | simpl; lia |].
  split; [exact Hshape|].
  split; [reflexivity|].
  split; [exact Hclear|].
  split; [exact Hkeep|exact Hfocus].
Defined.

(** C5, as stated, fails: Meta+A is a key event whose key is one
    character, and the cell it is delivered to stays empty. *)
Lemma handleKeyDown_meta_character_ignored :
  let st := Samples.empty4 in
  let event := Samples.press_meta "a" 0 in
  let t := handleKeyDown st event in
  length (key event) = 1%nat
  ∧ next_code st t !! 0%nat = Some (Str [])
  ∧ next_code st t !! 0%nat ≠ Some (Str (key event))
  ∧ focus_requests t = [].
Proof. repeat split; try reflexivity. discriminate. Qed.

Lemma handleKeyDown_sets_character_witness :
  let st := Samples.code_12__ in
  let event := Samples.press "9" 1 in
  let t := handleKeyDown st event in
  code_shape st
  ∧ next_code st t !! 1%nat = Some (Str (lit "9"))
  ∧ (∀ k, k ≠ 1%nat → next_code st t !! k = code st !! k)
  ∧ length (next_code st t) = 4%nat
  ∧ focus_requests t = [Int 2].
Proof.
  intros st event t.
  assert (Hshape : code_shape st) by reflexivity.
  split; [exact Hshape|].
  apply (handleKeyDown_sets_character st event 1 Hshape);
    [reflexivity | reflexivity | reflexivity | simpl; lia].
Defined.

(** C6, as stated, fails: Meta+Backspace is a Backspace key event, and
    the cell it is delivered to keeps its character. *)
Lemma handleKeyDown_meta_backspace_ignored :
  let st := Samples.code_12__ in
  let event := Samples.press_meta "Backspace" 1 in
  let t := handleKeyDown st event in
  key event = lit "Backspace"
  ∧ next_code st t !! 1%nat = Some (Str (lit "2"))
  ∧ next_code st t !! 1%nat ≠ Some (Str [])
  ∧ focus_requests t = [].
Proof. repeat split; try reflexivity. discriminate. Qed.

Lemma handleKeyDown_backspace_clears_witness :
  let st := Samples.code_12__ in
  let event := Samples.press "Backspace" 2 in
  let t := handleKeyDown st event in
  let first := Samples.press "Backspace" 0 in
  let t0 := handleKeyDown st first in
  code_shape st
  ∧ next_code st t = [Str (lit "1"); Str []; Str []; Str []]
  ∧ next_code st t !! 2%nat = Some (Str [])
  ∧ next_code st t !! 1%nat = Some (Str [])
  ∧ (∀ k, k ≠ 2%nat → k ≠ 1%nat → next_code st t !! k = code st !! k)
  ∧ focus_requests t = [Int 1]
  ∧ next_code st t0 = [Str []; Str (lit "2"); Str []; Str []]
  ∧ (∀ k, k ≠ 0%nat → next_code st t0 !! k = code st !! k)
  ∧ focus_requests t0 = [Int (-1)].
Proof.
  intros st event t first t0.
  assert (Hshape : code_shape st) by reflexivity.
  destruct (handleKeyDown_backspace_clears st event 2 Hshape)
    as (Hi & Hprev & _ & _ & Hfocus);
    [reflexivity | reflexivity | reflexivity | simpl; lia |].
  destruct Hprev as [Hp Hrest]; [lia|].
  destruct (handleKeyDown_backspace_clears st first 0 Hshape)
    as (_ & _ & Hrest0 & _ & Hfocus0);
    [reflexivity | reflexivity | reflexivity | simpl; lia |].
  split; [exact Hshape|].
  split; [reflexivity|].
  split; [exact Hi|].
  split; [exact Hp|].
  split; [exact Hrest|].
  split; [exact Hfocus|].
  split; [reflexivity|].
  split; [exact (Hrest0 eq_refl)|exact Hfocus0].
Defined.

(** ** The length of the code *)

Lemma mount_code (props : PassCodeProps) :
  numberOfDigits (mount props) = length (children props)
  ∧ code (mount props) = replicate (length (children props)) (Str [])
  ∧ code_shape (mount props).
Proof.
  unfold code_shape, mount, Array_filled; simpl.
  by rewrite length_replicate.
Qed.

(** A key event with an untagged or in-range position keeps the shape. *)
Lemma handleKeyDown_keeps_shape
  (st : state) (event : KeyboardEvent) (i : nat) :
  code_shape st →
  target_index event = NaN
  ∨ (target_index event = Int (Z.of_nat i) ∧ (i < numberOfDigits st)%nat) →
  length (next_code st (handleKeyDown st event)) = numberOfDigits st.
Proof.
  intros Hshape Hi.
  destruct (metaKey event) eqn:Hm.
  { by rewrite handleKeyDown_meta. }
  rewrite handleKeyDown_plain by done.
  unfold code_shape in Hshape.
  destruct Hi as [->|[-> Hpos]].
  - by destruct (bool_decide _); [|destruct (_ =? _)%nat].
  - destruct (bool_decide _); [|destruct (_ =? _)%nat];
      unfold next_code, put_at; simpl; try done.
    + destruct i as [|i].
      * change (Z.of_nat 0) with 0%Z.
        rewrite clear_at_zero, length_insert; [done|lia].
      * rewrite clear_at_positive, !length_insert; [done|lia].
    + rewrite array_set_length; lia.
Qed.

(** C3: a paste of "\uD83D\uDE00" followed by "12" (four code units,
    so length >= N for N = 4) leaves a code of three slots, the first
    holding both units of the pair; position 3 holds nothing, and the code
    is not the first four characters of the pasted text.  The focus
    request still goes to the last cell. *)
Theorem handlePaste_full_surrogate_pair :
  let st := Samples.empty4 in
  let pasted := Samples.grinning ++ lit "12" in
  let t := handlePaste st (Samples.paste pasted (Int 0)) in
  (numberOfDigits st ≤ length pasted)%nat
  ∧ next_code st t = [Str Samples.grinning; Str (lit "1"); Str (lit "2")]
  ∧ next_code st t !! 3%nat = None
  ∧ next_code st t ≠ (λ u, Str [u]) <$> take (numberOfDigits st) pasted
  ∧ focus_requests t = [Int 3].
Proof.
  split; [simpl; lia|].
  split; [reflexivity|].
  split; [reflexivity|].
  split; [discriminate|reflexivity].
Qed.

(** C7: the code has N empty strings right after the mount, but a paste
    does not always keep N slots: with four cells, pasting the four code
    units "\uD83D\uDE00" "1" "2" leaves a code of three slots. *)
Theorem handlePaste_shrinks_code :
  let st := mount Samples.cells4 in
  let pasted := Samples.grinning ++ lit "12" in
  numberOfDigits st = 4%nat
  ∧ code st = [Str []; Str []; Str []; Str []]
  ∧ length pasted = 4%nat
  ∧ length (next_code st (handlePaste st (Samples.paste pasted (Int 0))))
    = 3%nat
  ∧ ¬ code_shape (comp (onPaste {| comp := st; page := Samples.page4 |}
                          (Samples.paste pasted (Int 0)))).
Proof.
  split; [reflexivity|].
  split; [reflexivity|].
  split; [reflexivity|].
  split; [reflexivity|].
  unfold code_shape. simpl. discriminate.
Qed.

(** ** Scenarios *)

(** Four cells; "1", "2", "3", "4" typed into cells 0..3 in order give the
    code 1234, with cell 3 still focused after the last key. *)
Example typing_1234 :
  let w := {| comp := Samples.empty4; page := Samples.page4 |} in
  let w' := type_keys w [Samples.press "1" 0; Samples.press "2" 1;
                         Samples.press "3" 2; Samples.press "4" 3] in
  join (code (comp w')) = lit "1234"
  ∧ no_empty (code (comp w')) = true
  ∧ focused (page w') = Some 3%nat.
Proof. repeat split. Qed.

(** Four cells; pasting "12" at index 0 gives 1 2 _ _ and moves the focus
    to cell 2. *)
Example pasting_12 :
  let w := {| comp := Samples.empty4; page := Samples.page4 |} in
  let w' := onPaste w (Samples.paste (lit "12") (Int 0)) in
  code (comp w') = [Str (lit "1"); Str (lit "2"); Str []; Str []]
  ∧ focused (page w') = Some 2%nat.
Proof. split; reflexivity. Qed.

(** Four cells holding 1 2 _ _; Backspace at index 2 gives 1 _ _ _ and
    moves the focus to cell 1. *)
Example backspace_at_2 :
  let w := {| comp := Samples.code_12__; page := Samples.page4 |} in
  let w' := onKeyDown w (Samples.press "Backspace" 2) in
  code (comp w') = [Str (lit "1"); Str []; Str []; Str []]
  ∧ focused (page w') = Some 1%nat.
Proof. split; reflexivity. Qed.

(** ** Rendering *)

(** The [<input>] rendered for cell [i]. *)
Lemma Children_map_inputs (st : state) (children : list ReactNode) :
  Forall (λ child, child = PassCodeInputNode) children →
  ∀ index,
    Children_map st children index =
      Value ((λ i, {| cell_index := Some i;
                      cell_value := read (code st) i;
                      cell_onKeyDown := true;
                      cell_onPaste := true |})
               <$> seq index (length children)).
Proof.
  induction 1 as [|child rest -> _ IH]; intros index; [done|].
  simpl. by rewrite IH.
Qed.

Lemma Children_map_other (st : state) (children : list ReactNode) :
  OtherNode ∈ children →
  ∀ index,
    Children_map st children index =
      Raise "PassCode children must be PassCode.Input components".
Proof.
  induction children as [|child rest IH]; intros Hin index.
  - by apply elem_of_nil in Hin.
  - destruct child; [|done].
    apply elem_of_cons in Hin as [?|Hin]; [done|].
    simpl. by rewrite IH.
Qed.

Lemma children_all_or_other (children : list ReactNode) :
  Forall (λ child, child = PassCodeInputNode) children ∨ OtherNode ∈ children.
Proof.
  induction children as [|[] rest [IH|IH]].
  - left. constructor.
  - left. by constructor.
  - right. apply elem_of_cons; by right.
  - right. apply elem_of_cons; by left.
  - right. apply elem_of_cons; by left.
Qed.

Lemma render_cells_under_provider
  (context : PassCodeContextValue) (cells : list PassCodeInputProps) :
  render_cells (Some context) cells =
    Value ((λ cell,
              {| maxLength := 1;
                 inputMode :=
                   if ctx_alphanumeric context then "text" else "numeric";
                 input_value := cell_value cell;
                 data_index := cell_index cell;
                 input_onKeyDown := cell_onKeyDown cell;
                 input_onPaste := cell_onPaste cell |}) <$> cells).
Proof.
  induction cells as [|cell rest IH]; [done|].
  simpl. by rewrite IH.
Qed.

(** X1: when every child is a [PassCodeInput], the render succeeds with one
    [<input>] per child, in order; cell [i] carries [data-index] [i], shows
    [code[i]], is limited to one character, is wired to both handlers, and
    has input mode "text" unless [alphanumeric] was passed as [false]. *)
Theorem PassCode_render_inputs (props : PassCodeProps) (st : state) :
  Forall (λ child, child = PassCodeInputNode) (children props) →
  ∃ els,
    PassCode_render props st = Value els
    ∧ length els = length (children props)
    ∧ ∀ i, (i < length (children props))%nat →
        els !! i =
          Some {| maxLength := 1;
                  inputMode :=
                    if default true (alphanumeric props)
                    then "text" else "numeric";
                  input_value := read (code st) i;
                  data_index := Some i;
                  input_onKeyDown := true;
                  input_onPaste := true |}.
Proof.
  intros Hall. unfold PassCode_render.
  rewrite Children_map_inputs by done.
  rewrite render_cells_under_provider.
  eexists. split; [reflexivity|]. split.
  - by rewrite !length_fmap, length_seq.
  - intros i Hi. rewrite !list_lookup_fmap, lookup_seq_lt by done. done.
Qed.


(** ** What no event changes *)

Lemma moveFocus_container (index : jsnum) (d : dom) :
  container (moveFocus index d) = container d.
Proof.
  unfold moveFocus. destruct (container d) as [els|] eqn:Hc; [|done].
  destruct (item els index) as [[]|], index; simpl; done.
Qed.

Lemma moveFocus_focused (index : jsnum) (d : dom) (j : nat) :
  focused (moveFocus index d) = Some j →
  focused d = Some j
  ∨ ∃ els, container d = Some els ∧ els !! j = Some HTMLInputElement.
Proof.
  unfold moveFocus. destruct (container d) as [els|] eqn:Hc; [|by left].
  destruct index as [|z]; simpl; [by left|].
  destruct (Z.ltb_spec z 0); [by left|].
  destruct (els !! Z.to_nat z) as [[]|] eqn:Hz; simpl; try by left.
  intros [= <-]. right. by exists els.
Qed.

Lemma same_frame_refl (w : world) : same_frame w w.
Proof. repeat split. intros j Hj. by left. Qed.

Lemma same_frame_trans (w1 w2 w3 : world) :
  same_frame w1 w2 → same_frame w2 w3 → same_frame w1 w3.
Proof.
  intros (Hn1 & Hc1 & Hf1) (Hn2 & Hc2 & Hf2).
  split; [congruence|]. split; [congruence|].
  intros j Hj. destruct (Hf2 j Hj) as [Hj2|(els & Hels & Hin)].
  - by apply Hf1.
  - right. exists els. split; [congruence|done].
Qed.

Lemma perform_frame (w : world) (e : effect) : same_frame w (perform w e).
Proof.
  destruct e as [|index|next|arg]; try apply same_frame_refl.
  - split; [done|]. split; [apply moveFocus_container|].
    apply moveFocus_focused.
  - split; [done|]. split; [done|]. intros j Hj. by left.
Qed.

Lemma run_effects_frame (effs : list effect) :
  ∀ w, same_frame w (foldl perform w effs).
Proof.
  induction effs as [|e effs IH]; intros w; [apply same_frame_refl|].
  simpl. eapply same_frame_trans; [apply perform_frame|apply IH].
Qed.

Lemma deliver_frame (w : world) (ev : input_event) :
  same_frame w (deliver w ev).
Proof. destruct ev; apply run_effects_frame. Qed.

(** X3: no sequence of key and paste events, whatever their fields,
    changes the digit count or the rendered cells, and the focus is either
    where it was or on an existing [<input>] of the container. *)
Theorem events_keep_frame (w : world) (evs : list input_event) :
  let w' := deliver_all w evs in
  numberOfDigits (comp w') = numberOfDigits (comp w)
  ∧ container (page w') = container (page w)
  ∧ ∀ j, focused (page w') = Some j →
         focused (page w) = Some j
         ∨ ∃ els, container (page w) = Some els
                  ∧ els !! j = Some HTMLInputElement.
Proof.
  revert w. induction evs as [|ev evs IH]; intros w.
  - apply same_frame_refl.
  - simpl. eapply same_frame_trans; [apply deliver_frame|apply IH].
Qed.

(** ** What ordinary events keep *)

Lemma last_cons_default {A} (x d : A) (l : list A) :
  default d (last (x :: l)) = default x (last l).
Proof.
  destruct l as [|y l]; [done|].
  change (last (x :: y :: l)) with (last (y :: l)).
  destruct (last (y :: l)) eqn:Hl; [done|].
  by apply last_None in Hl.
Qed.

Lemma run_effects_code (effs : list effect) :
  ∀ w,
    code (comp (foldl perform w effs)) =
      default (code (comp w))
        (last (omap (λ e, match e with SetCode a => Some a | _ => None end)
                 effs)).
Proof.
  induction effs as [|e effs IH]; intros w; [done|].
  simpl. rewrite IH. destruct e; simpl; try done.
  by rewrite last_cons_default.
Qed.

Lemma run_code (t : trace) (w : world) :
  code (comp (run t w)) = next_code (comp w) t.
Proof. apply run_effects_code. Qed.

Lemma in_range_cases (n : nat) (i : jsnum) :
  in_range n i = true →
  i = NaN ∨ ∃ k, i = Int (Z.of_nat k) ∧ (k < n)%nat.
Proof.
  destruct i as [|z]; [by left|]. simpl.
  intros [H0 Hn]%andb_true_iff. right. exists (Z.to_nat z).
  apply Z.leb_le in H0. apply Z.ltb_lt in Hn.
  split; [f_equal|]; lia.
Qed.

Lemma single_key (k : jsstring) : length k = 1%nat → single (Str k) = true.
Proof. by destruct k as [|u [|]]. Qed.

Lemma single_pasted_or_empty (pasted : jsstring) (j : nat) :
  single (pasted_or_empty pasted j) = true.
Proof.
  unfold pasted_or_empty, string_at.
  destruct (Z.ltb_spec (Z.of_nat j) 0); [done|].
  by destruct (pasted !! _).
Qed.

Lemma handleKeyDown_cells_ok (st : state) (event : KeyboardEvent) :
  cells_ok st →
  in_range (numberOfDigits st) (target_index event) = true →
  length (next_code st (handleKeyDown st event)) = numberOfDigits st
  ∧ Forall (λ v, single v = true) (next_code st (handleKeyDown st event)).
Proof.
  intros [Hshape Hall] Hin. unfold code_shape in Hshape.
  destruct (metaKey event) eqn:Hm.
  { by rewrite handleKeyDown_meta. }
  rewrite handleKeyDown_plain by done.
  apply in_range_cases in Hin as [->|(i & -> & Hi)].
  { by destruct (bool_decide _); [|destruct (_ =? _)%nat]. }
  destruct (bool_decide _); [|destruct (Nat.eqb_spec (length (key event)) 1)];
    unfold next_code, put_at; simpl; [| |done].
  - destruct i as [|i].
    + change (Z.of_nat 0) with 0%Z. rewrite clear_at_zero by lia.
      split; [by rewrite length_insert|]. by apply Forall_insert.
    + rewrite clear_at_positive by lia.
      split; [by rewrite !length_insert|]. by do 2 (apply Forall_insert; [|done]).
  - rewrite array_set_inside by lia.
    split; [by rewrite length_insert|].
    apply Forall_insert; [done|]. by apply single_key.
Qed.

Lemma forallb_no_high (s : jsstring) :
  forallb (λ u, negb (is_high_surrogate u)) s = true →
  Forall (λ u, is_high_surrogate u = false) s.
Proof.
  intros H. apply Forall_forall. intros u Hu.
  rewrite forallb_forall in H. apply negb_true_iff, H.
  by apply list_elem_of_In.
Qed.

Lemma handlePaste_cells_ok (st : state) (event : ClipboardEvent) :
  cells_ok st →
  tame (numberOfDigits st) (Paste event) = true →
  length (next_code st (handlePaste st event)) = numberOfDigits st
  ∧ Forall (λ v, single v = true) (next_code st (handlePaste st event)).
Proof.
  intros [Hshape Hall] [Hin Htext]%andb_true_iff. unfold code_shape in Hshape.
  apply in_range_cases in Hin as [Hi|(i & Hi & Hlt)].
  { unfold handlePaste. by rewrite Hi. }
  destruct (Nat.ltb_spec (length (clipboardText event)) (numberOfDigits st))
    as [Hshort|Hlong].
  - rewrite (handlePaste_partial_trace st event (Z.of_nat i)) by done.
    unfold next_code; simpl.
    replace (Z.to_nat (Z.of_nat (numberOfDigits st) - Z.of_nat i))
      with (numberOfDigits st - i)%nat by lia.
    destruct (paste_loop_spec (clipboardText event) i
                (numberOfDigits st - i) i (code st)) as (Hl & Hlo & Hhi);
      [lia | lia |].
    split; [lia|]. apply Forall_lookup. intros k v Hk.
    destruct (decide (k < i)%nat) as [Hki|Hki].
    + rewrite Hlo in Hk by done.
      by apply (Forall_lookup_1 _ _ _ _ Hall Hk).
    + rewrite Hhi in Hk.
      * injection Hk as <-. apply single_pasted_or_empty.
      * apply lookup_lt_Some in Hk. lia.
  - simpl in Htext. apply forallb_no_high in Htext.
    destruct (handlePaste_full_no_surrogate st event (Z.of_nat i))
      as (Hcode & Hlen & _); [done..|].
    split; [done|]. rewrite Hcode. apply Forall_fmap, Forall_true. done.
Qed.

Lemma deliver_cells_ok (w : world) (ev : input_event) :
  cells_ok (comp w) →
  tame (numberOfDigits (comp w)) ev = true →
  cells_ok (comp (deliver w ev)).
Proof.
  intros Hok Htame.
  pose proof (deliver_frame w ev) as (Hn & _).
  unfold cells_ok, code_shape. rewrite Hn.
  destruct ev as [event|event]; simpl; unfold onKeyDown, onPaste;
    rewrite run_code.
  - by apply handleKeyDown_cells_ok.
  - by apply handlePaste_cells_ok.
Qed.

(** X4: as long as every event carries a position tag in range (or none)
    and every paste that fills the code has no high surrogate among its
    first N code units, the code keeps N slots and each slot holds a
    string of at most one code unit. *)
Theorem tame_events_keep_cells (w : world) (evs : list input_event) :
  cells_ok (comp w) →
  forallb (tame (numberOfDigits (comp w))) evs = true →
  cells_ok (comp (deliver_all w evs)).
Proof.
  revert w. induction evs as [|ev evs IH]; intros w Hok Htame; [done|].
  simpl in Htame. apply andb_true_iff in Htame as [Hev Hevs].
  simpl. apply IH.
  - by apply deliver_cells_ok.
  - by destruct (deliver_frame w ev) as (-> & _).
Qed.

(** ** Keys that are neither Backspace nor one character *)

(** X5: with the meta modifier up, a key that is neither Backspace nor a
    single character (Tab, Enter, the arrows, ...) has its default action
    suppressed and nothing else happens: code and page stay as they
    were. *)
Theorem handleKeyDown_swallows_other_keys (w : world) (event : KeyboardEvent) :
  metaKey event = false →
  key event ≠ lit "Backspace" →
  length (key event) ≠ 1%nat →
  handleKeyDown (comp w) event = (PreventDefault ;; ret)
  ∧ defaultPrevented (handleKeyDown (comp w) event) = true
  ∧ onKeyDown w event = w.
Proof.
  intros Hm Hb Hl. unfold onKeyDown.
  rewrite handleKeyDown_plain by done.
  rewrite bool_decide_eq_false_2 by done.
  by destruct (Nat.eqb_spec (length (key event)) 1).
Qed.

Lemma handleKeyDown_swallows_other_keys_witness :
  let w := {| comp := Samples.code_12__; page := Samples.page4 |} in
  handleKeyDown (comp w) (Samples.press "Tab" 1) = (PreventDefault ;; ret)
  ∧ defaultPrevented (handleKeyDown (comp w) (Samples.press "Tab" 1)) = true
  ∧ onKeyDown w (Samples.press "Tab" 1) = w.
Proof.
  intros w.
  apply (handleKeyDown_swallows_other_keys w (Samples.press "Tab" 1));
    [reflexivity | discriminate | discriminate].
Defined.

(** ** A paste that fills every cell *)

Lemma code_points_pair (s : jsstring) :
  (concat (code_points s) = s
   ∧ (length (code_points s) ≤ length s)%nat
   ∧ (length s ≤ 2 * length (code_points s))%nat
   ∧ Forall (λ p, p ≠ []) (code_points s))
  ∧ ∀ u,
      concat (code_points (u :: s)) = u :: s
      ∧ (length (code_points (u :: s)) ≤ length (u :: s))%nat
      ∧ (length (u :: s) ≤ 2 * length (code_points (u :: s)))%nat
      ∧ Forall (λ p, p ≠ []) (code_points (u :: s)).
Proof.
  induction s as [|l t [IHt IHl]].
  - split; [by repeat split|]. intros u. repeat split; simpl; try lia.
    by constructor.
  - split; [apply IHl|]. intros u. rewrite code_points_cons.
    destruct (is_high_surrogate u && is_low_surrogate l).
    + destruct IHt as (Hc & Hle & Hge & Hne).
      repeat split; simpl in *; try lia; [by rewrite Hc|by constructor].
    + destruct (IHl l) as (Hc & Hle & Hge & Hne).
      repeat split; simpl in *; try lia; [by rewrite Hc|by constructor].
Qed.

Lemma join_Str (l : list jsstring) : join (Str <$> l) = concat l.
Proof.
  induction l as [|s l IH]; [done|].
  change (join (Str <$> s :: l)) with (s ++ join (Str <$> l)).
  by rewrite IH.
Qed.

Lemma join_Array_from (s : jsstring) : join (Array_from s) = s.
Proof.
  unfold Array_from. rewrite join_Str. apply (code_points_pair s).
Qed.

Lemma no_empty_Array_from (s : jsstring) : no_empty (Array_from s) = true.
Proof.
  unfold no_empty, Array_from. apply forallb_forall. intros v Hv.
  apply list_elem_of_In, list_elem_of_fmap in Hv as (p & -> & Hp).
  destruct (code_points_pair s) as [(_ & _ & _ & Hne) _].
  rewrite Forall_forall in Hne. specialize (Hne p Hp). by destruct p.
Qed.

(** X6: after a paste of N or more code units, at any numeric position,
    the slots of the code joined together are exactly the first N code
    units of the text; the code has at most N and at least N/2 slots and
    none of them is empty. *)
Theorem handlePaste_full_joined
  (st : state) (event : ClipboardEvent) (z : Z) :
  paste_index event = Int z →
  (numberOfDigits st ≤ length (clipboardText event))%nat →
  let code' := next_code st (handlePaste st event) in
  join code' = take (numberOfDigits st) (clipboardText event)
  ∧ (length code' ≤ numberOfDigits st)%nat
  ∧ (numberOfDigits st ≤ 2 * length code')%nat
  ∧ no_empty code' = true.
Proof.
  intros Hi Hlen code'. subst code'.
  rewrite (handlePaste_full_trace st event z) by done.
  unfold next_code; simpl. unfold slice0.
  split; [apply join_Array_from|].
  destruct (code_points_pair (take (numberOfDigits st) (clipboardText event)))
    as [(_ & Hle & Hge & _) _].
  rewrite length_take in Hle, Hge.
  unfold Array_from. rewrite length_fmap.
  split; [lia|]. split; [lia|]. apply no_empty_Array_from.
Qed.

Lemma handlePaste_full_joined_witness :
  let st := Samples.empty4 in
  let event := Samples.paste (Samples.grinning ++ lit "123") (Int 2) in
  let code' := next_code st (handlePaste st event) in
  join code' = Samples.grinning ++ lit "12"
  ∧ (length code' ≤ 4)%nat
  ∧ (4 ≤ 2 * length code')%nat
  ∧ no_empty code' = true.
Proof.
  intros st event code'.
  apply (handlePaste_full_joined st event 2); [reflexivity | simpl; lia].
Defined.

(** ** One event on the whole world *)

Lemma moveFocus_mounted (d : dom) (st : state) (j : nat) :
  mounted d st →
  (j < numberOfDigits st)%nat →
  moveFocus (Int (Z.of_nat j)) d
    = {| container := container d; focused := Some j |}.
Proof.
  intros Hm Hj. unfold mounted in Hm. unfold moveFocus, item.
  rewrite Hm at 1.
  destruct (Z.ltb_spec (Z.of_nat j) 0); [lia|].
  by rewrite Nat2Z.id, lookup_replicate_2.
Qed.

Lemma mounted_shows (d : dom) (st : state) : mounted d st → shows d st.
Proof.
  intros Hm els Hels. rewrite Hm in Hels. injection Hels as <-.
  apply length_replicate.
Qed.

Lemma onKeyDown_char (w : world) (event : KeyboardEvent) (i : nat) :
  metaKey event = false →
  length (key event) = 1%nat →
  target_index event = Int (Z.of_nat i) →
  onKeyDown w event =
    {| comp := {| numberOfDigits := numberOfDigits (comp w);
                  code := put_at (Int (Z.of_nat i)) (key event)
                            (code (comp w)) |};
       page := moveFocus (Int (Z.of_nat (S i))) (page w) |}.
Proof.
  intros Hm Hk Hi. unfold onKeyDown.
  rewrite handleKeyDown_char by done. rewrite Hi. unfold run; simpl.
  by replace (Z.of_nat i + 1)%Z with (Z.of_nat (S i)) by lia.
Qed.

Lemma onKeyDown_backspace (w : world) (event : KeyboardEvent) (i : nat) :
  metaKey event = false →
  key event = lit "Backspace" →
  target_index event = Int (Z.of_nat i) →
  onKeyDown w event =
    {| comp := {| numberOfDigits := numberOfDigits (comp w);
                  code := clear_at (Int (Z.of_nat i)) (code (comp w)) |};
       page := moveFocus (Int (Z.of_nat i - 1)) (page w) |}.
Proof.
  intros Hm Hk Hi. unfold onKeyDown.
  rewrite handleKeyDown_backspace by done. by rewrite Hi.
Qed.

(** X7: typing a character into an empty cell [i] that is not the last
    one moves the focus to cell [i+1]; a Backspace there, that cell being
    empty, restores the code and brings the focus back to cell [i]. *)
Theorem type_then_backspace
  (w : world) (typed erased : KeyboardEvent) (i : nat) :
  code_shape (comp w) →
  mounted (page w) (comp w) →
  (S i < numberOfDigits (comp w))%nat →
  code (comp w) !! i = Some (Str []) →
  code (comp w) !! S i = Some (Str []) →
  metaKey typed = false →
  length (key typed) = 1%nat →
  target_index typed = Int (Z.of_nat i) →
  metaKey erased = false →
  key erased = lit "Backspace" →
  target_index erased = Int (Z.of_nat (S i)) →
  let w1 := onKeyDown w typed in
  let w2 := onKeyDown w1 erased in
  focused (page w1) = Some (S i)
  ∧ comp w2 = comp w
  ∧ focused (page w2) = Some i.
Proof.
  intros Hshape Hmnt Hi Hci Hcs Hm1 Hk1 Hi1 Hm2 Hk2 Hi2 w1 w2. subst w1 w2.
  unfold code_shape in Hshape.
  rewrite (onKeyDown_char w typed i) by done.
  rewrite (moveFocus_mounted _ (comp w)) by done.
  split; [done|].
  rewrite (onKeyDown_backspace _ erased (S i)) by done. simpl.
  unfold put_at. rewrite array_set_inside by lia.
  rewrite clear_at_positive by (rewrite length_insert; lia).
  replace (S i - 1)%nat with i by lia.
  replace (Z.of_nat (S i) - 1)%Z with (Z.of_nat i) by lia.
  split.
  - destruct (comp w) as [n c]; simpl in *. f_equal.
    rewrite list_insert_insert_ne by lia.
    rewrite list_insert_insert_eq.
    rewrite (list_insert_id c i) by done.
    by apply list_insert_id.
  - unfold moveFocus, item; simpl. rewrite Hmnt.
    destruct (Z.ltb_spec (Z.of_nat i) 0); [lia|].
    rewrite Nat2Z.id, lookup_replicate_2 by lia. done.
Qed.

(** X8: typing into the last cell leaves the focus where it is, and a
    Backspace there then clears the last cell and the one before it: the
    character typed earlier into cell N-2 is lost as well, and the focus
    ends on cell N-2. *)
Theorem type_in_last_cell_then_backspace
  (w : world) (typed erased : KeyboardEvent) (n : nat) :
  code_shape (comp w) →
  mounted (page w) (comp w) →
  numberOfDigits (comp w) = S (S n) →
  metaKey typed = false →
  length (key typed) = 1%nat →
  target_index typed = Int (Z.of_nat (S n)) →
  metaKey erased = false →
  key erased = lit "Backspace" →
  target_index erased = Int (Z.of_nat (S n)) →
  let w1 := onKeyDown w typed in
  let w2 := onKeyDown w1 erased in
  page w1 = page w
  ∧ code (comp w1) !! S n = Some (Str (key typed))
  ∧ code (comp w2) !! S n = Some (Str [])
  ∧ code (comp w2) !! n = Some (Str [])
  ∧ (∀ k, (k < n)%nat → code (comp w2) !! k = code (comp w) !! k)
  ∧ focused (page w2) = Some n.
Proof.
  intros Hshape Hmnt Hn Hm1 Hk1 Hi1 Hm2 Hk2 Hi2 w1 w2. subst w1 w2.
  unfold code_shape in Hshape.
  rewrite (onKeyDown_char w typed (S n)) by done.
  rewrite (moveFocus_beyond (comp w))
    by (try (by apply mounted_shows); lia).
  split; [done|].
  unfold put_at. rewrite array_set_inside by lia.
  split; [simpl; apply list_lookup_insert_eq; lia|].
  rewrite (onKeyDown_backspace _ erased (S n)) by done. simpl.
  rewrite clear_at_positive by (rewrite length_insert; lia).
  replace (S n - 1)%nat with n by lia.
  replace (Z.of_nat (S n) - 1)%Z with (Z.of_nat n) by lia.
  rewrite list_insert_insert_eq.
  split.
  { rewrite list_lookup_insert_ne by lia. apply list_lookup_insert_eq. lia. }
  split.
  { apply list_lookup_insert_eq. rewrite length_insert. lia. }
  split.
  { intros k Hk. by rewrite !list_lookup_insert_ne by lia. }
  rewrite (moveFocus_mounted _ (comp w)); [done|done|lia].
Qed.

(** ** Typing a run of characters *)

Lemma typing_run (ks : list jsstring) :
  Forall (λ k, length k = 1%nat) ks →
  ∀ (i : nat) (w : world),
    (i + length ks ≤ length (code (comp w)))%nat →
    code (comp (type_keys w (keys_from i ks)))
      = take i (code (comp w)) ++ (Str <$> ks)
        ++ drop (i + length ks) (code (comp w)).
Proof.
  induction 1 as [|k ks Hk _ IH]; intros i w Hlen.
  - simpl. by rewrite Nat.add_0_r, take_drop.
  - simpl in Hlen. simpl.
    rewrite (onKeyDown_char w _ i) by done.
    rewrite IH; cbn [comp code]; unfold put_at;
      rewrite array_set_inside by lia.
    + rewrite (take_S_r _ i (Str k))
        by (apply list_lookup_insert_eq; lia).
      rewrite take_insert_ge by lia.
      rewrite drop_insert_lt by lia.
      rewrite <- app_assoc. simpl.
      by replace (S (i + length ks)) with (i + S (length ks))%nat by lia.
    + rewrite length_insert. lia.
Qed.

(** X9: typing one character per cell from cell [i] on replaces exactly
    those cells, in order, and leaves the others alone; typed over all the
    cells from cell 0, the characters are the code, which then has no
    empty position. *)
Theorem typing_fills_from (w : world) (ks : list jsstring) (i : nat) :
  Forall (λ k, length k = 1%nat) ks →
  (i + length ks ≤ length (code (comp w)))%nat →
  let w' := type_keys w (keys_from i ks) in
  code (comp w')
    = take i (code (comp w)) ++ (Str <$> ks)
      ++ drop (i + length ks) (code (comp w))
  ∧ (i = 0%nat → length ks = length (code (comp w)) →
     code (comp w') = Str <$> ks
     ∧ join (code (comp w')) = concat ks
     ∧ no_empty (code (comp w')) = true).
Proof.
  intros Hks Hlen w'. subst w'.
  assert (Hcode := typing_run ks Hks i w Hlen).
  split; [done|]. intros -> Hall.
  rewrite Hcode, drop_ge by lia. simpl. rewrite app_nil_r.
  split; [done|]. split; [apply join_Str|].
  unfold no_empty. apply forallb_forall. intros v Hv.
  apply list_elem_of_In, list_elem_of_fmap in Hv as (k & -> & Hin).
  rewrite Forall_forall in Hks. specialize (Hks k Hin).
  by destruct k.
Qed.

(** ** Writes past the end, and writing twice *)

Lemma array_set_grow (a : array) (z : Z) (v : value) :
  (Z.of_nat (length a) ≤ z < 2 ^ 32 - 1)%Z →
  array_set a (Int z) v
    = a ++ replicate (Z.to_nat z - length a) Undefined ++ [v].
Proof.
  intros Hz. unfold array_set.
  destruct (Z.ltb_spec z 0); [lia|].
  destruct (Z.ltb_spec z (Z.of_nat (length a))); [lia|].
  by destruct (Z.ltb_spec z (2 ^ 32 - 1)); [|lia].
Qed.

Lemma array_set_far (a : array) (z : Z) (v : value) :
  (Z.of_nat (length a) ≤ z)%Z → (2 ^ 32 - 1 ≤ z)%Z →
  array_set a (Int z) v = a.
Proof.
  intros Hz Hfar. unfold array_set.
  destruct (Z.ltb_spec z 0); [done|].
  destruct (Z.ltb_spec z (Z.of_nat (length a))); [lia|].
  by destruct (Z.ltb_spec z (2 ^ 32 - 1)); [lia|].
Qed.

Lemma array_set_present (a : array) (z : Z) (v : value) :
  (0 ≤ z)%Z → a !! Z.to_nat z = Some v → array_set a (Int z) v = a.
Proof.
  intros Hz Hv. pose proof (lookup_lt_Some _ _ _ Hv) as Hlt.
  replace z with (Z.of_nat (Z.to_nat z)) by lia.
  rewrite array_set_inside by done. by apply list_insert_id.
Qed.

Lemma array_set_effect (a : array) (z : Z) (v : value) :
  (array_set a (Int z) v = a
   ∧ (z < 0 ∨ (Z.of_nat (length a) ≤ z ∧ 2 ^ 32 - 1 ≤ z))%Z)
  ∨ ((0 ≤ z)%Z
     ∧ array_set a (Int z) v !! Z.to_nat z = Some v
     ∧ (length (array_set a (Int z) v) ≤ max (length a) (Z.to_nat z + 1))%nat
     ∧ ∀ k x, a !! k = Some x → k ≠ Z.to_nat z →
              array_set a (Int z) v !! k = Some x).
Proof.
  destruct (Z.ltb_spec z 0) as [Hneg|Hpos].
  { left. split; [by apply array_set_negative|lia]. }
  destruct (Z.ltb_spec z (Z.of_nat (length a))) as [Hin|Hout].
  - right. split; [done|].
    assert (Hset : array_set a (Int z) v = <[Z.to_nat z := v]> a).
    { rewrite <- (Z2Nat.id z) at 1 by lia. apply array_set_inside. lia. }
    rewrite Hset.
    split; [apply list_lookup_insert_eq; lia|].
    split; [rewrite length_insert; lia|].
    intros k x Hk Hne. by rewrite list_lookup_insert_ne.
  - destruct (Z.ltb_spec z (2 ^ 32 - 1)) as [Hnear|Hfar].
    + right. split; [done|]. rewrite array_set_grow by lia.
      split.
      { rewrite lookup_app_r by lia.
        rewrite lookup_app_r by (rewrite length_replicate; lia).
        rewrite length_replicate.
        by replace (Z.to_nat z - length a - (Z.to_nat z - length a))%nat
          with 0%nat by lia. }
      split.
      { rewrite !length_app, length_replicate. simpl. lia. }
      intros k x Hk _. by apply lookup_app_l_Some.
    + left. split; [by apply array_set_far|lia].
Qed.

Lemma array_set_twice (a : array) (i : jsnum) (v : value) :
  array_set (array_set a i v) i v = array_set a i v.
Proof.
  destruct i as [|z]; [done|].
  destruct (array_set_effect a z v) as [[Heq _]|(Hz & Hv & _)].
  - by rewrite !Heq.
  - by apply array_set_present.
Qed.

Lemma clear_at_twice (index : jsnum) (a : array) :
  clear_at index (clear_at index a) = clear_at index a.
Proof.
  destruct index as [|z]; [done|]. unfold clear_at. simpl.
  destruct (Z.ltb_spec 0 z) as [Hz|Hz]; [|apply array_set_twice].
  pose proof (array_set_effect a z (Str [])) as H1.
  remember (array_set a (Int z) (Str [])) as b1 eqn:Hb1.
  pose proof (array_set_effect b1 (z - 1) (Str [])) as H2.
  pose proof (array_set_twice b1 (Int (z - 1)) (Str [])) as H3.
  remember (array_set b1 (Int (z - 1)) (Str [])) as b2 eqn:Hb2.
  assert (Hfix : array_set b2 (Int z) (Str []) = b2); [|by rewrite Hfix].
  clear Hb1 Hb2 H3.
  destruct H1 as [[-> Hwhy]|(_ & Hv & _)].
  - destruct H2 as [[-> _]|(_ & _ & Hlen & _)].
    + destruct Hwhy as [?|[? ?]]; [lia|by apply array_set_far].
    + apply array_set_far; lia.
  - apply array_set_present; [lia|].
    destruct H2 as [[-> _]|(_ & _ & _ & Hkeep)]; [done|].
    apply Hkeep; [done|lia].
Qed.

Lemma moveFocus_twice (index : jsnum) (d : dom) :
  moveFocus index (moveFocus index d) = moveFocus index d.
Proof.
  pose proof (moveFocus_container index d) as Hsame.
  unfold moveFocus at 1. rewrite Hsame.
  destruct (container d) as [els|] eqn:Hc; [|done].
  destruct (item els index) as [[]|] eqn:Hitem, index as [|z]; try done.
  unfold moveFocus. by rewrite Hc, Hitem.
Qed.

(** X10: delivering the same key event twice in a row leaves the code
    and the page as after the first delivery, for every state and every
    event. *)
Theorem onKeyDown_twice (w : world) (event : KeyboardEvent) :
  onKeyDown (onKeyDown w event) event = onKeyDown w event.
Proof.
  unfold onKeyDown.
  destruct (metaKey event) eqn:Hm.
  { by rewrite !handleKeyDown_meta. }
  rewrite !handleKeyDown_plain by done.
  destruct (bool_decide _); [|destruct (_ =? _)%nat]; unfold run;
    cbn [effects emit ret foldl perform comp page code numberOfDigits].
  - by rewrite moveFocus_twice, clear_at_twice.
  - unfold put_at. by rewrite moveFocus_twice, array_set_twice.
  - done.
Qed.

(** ** More on pastes *)

Lemma onPaste_partial (w : world) (event : ClipboardEvent) (i : nat) :
  paste_index event = Int (Z.of_nat i) →
  (length (clipboardText event) < numberOfDigits (comp w))%nat →
  onPaste w event =
    {| comp :=
         {| numberOfDigits := numberOfDigits (comp w);
            code := paste_loop (numberOfDigits (comp w) - i) (Z.of_nat i)
                      (Z.of_nat i) (clipboardText event) (code (comp w)) |};
       page := moveFocus (Int (Z.of_nat (i + length (clipboardText event))))
                 (page w) |}.
Proof.
  intros Hi Hlen. unfold onPaste.
  rewrite (handlePaste_partial_trace _ event (Z.of_nat i)) by done.
  unfold run. cbn [effects emit ret foldl perform comp page].
  replace (Z.to_nat (Z.of_nat (numberOfDigits (comp w)) - Z.of_nat i))
    with (numberOfDigits (comp w) - i)%nat by lia.
  by rewrite Nat2Z.inj_add.
Qed.

Lemma onPaste_full (w : world) (event : ClipboardEvent) (z : Z) :
  paste_index event = Int z →
  (numberOfDigits (comp w) ≤ length (clipboardText event))%nat →
  onPaste w event =
    {| comp :=
         {| numberOfDigits := numberOfDigits (comp w);
            code := Array_from (slice0 (clipboardText event)
                                  (numberOfDigits (comp w))) |};
       page := moveFocus (Int (Z.of_nat (numberOfDigits (comp w)) - 1))
                 (page w) |}.
Proof.
  intros Hi Hlen. unfold onPaste.
  by rewrite (handlePaste_full_trace _ event z).
Qed.

(** X11: pasting an empty clipboard at position [i] clears position [i]
    and every position to its right, leaves the positions before [i]
    unchanged, and asks for focus on [i] itself. *)
Theorem paste_of_nothing_erases
  (st : state) (event : ClipboardEvent) (i : nat) :
  code_shape st →
  paste_index event = Int (Z.of_nat i) →
  (i < numberOfDigits st)%nat →
  clipboardText event = [] →
  next_code st (handlePaste st event)
    = take i (code st) ++ replicate (numberOfDigits st - i) (Str [])
  ∧ focus_requests (handlePaste st event) = [Int (Z.of_nat i)].
Proof.
  intros Hshape Hi Hpos Htext. unfold code_shape in Hshape.
  rewrite (handlePaste_partial_trace st event (Z.of_nat i))
    by (try done; rewrite Htext; simpl; lia).
  unfold next_code, focus_requests; simpl.
  replace (Z.to_nat (Z.of_nat (numberOfDigits st) - Z.of_nat i))
    with (numberOfDigits st - i)%nat by lia.
  rewrite Htext. split; [|do 2 f_equal; simpl; lia].
  destruct (paste_loop_spec [] i (numberOfDigits st - i) i (code st))
    as (Hl & Hlo & Hhi); [lia | lia |].
  apply list_eq. intros k.
  destruct (decide (k < i)%nat) as [Hk|Hk].
  - rewrite Hlo by done. rewrite lookup_app_l by (rewrite length_take; lia).
    by rewrite lookup_take_lt.
  - rewrite lookup_app_r by (rewrite length_take; lia).
    rewrite length_take_le by lia.
    destruct (decide (k < numberOfDigits st)%nat) as [Hkn|Hkn].
    + rewrite Hhi by lia. rewrite lookup_replicate_2 by lia.
      unfold pasted_or_empty. by rewrite string_at_outside by (simpl; lia).
    + rewrite lookup_ge_None_2 by lia.
      symmetry. apply lookup_replicate_None. lia.
Qed.

(** X12: where the focus is after a paste delivered at cell [i]: on the
    last cell when the text has N or more code units; on cell [i+L] for a
    shorter text that ends before the last cell; unchanged when the
    shorter text reaches the end of the row. *)
Theorem onPaste_focus (w : world) (event : ClipboardEvent) (i : nat) :
  mounted (page w) (comp w) →
  paste_index event = Int (Z.of_nat i) →
  (i < numberOfDigits (comp w))%nat →
  let n := numberOfDigits (comp w) in
  let l := length (clipboardText event) in
  focused (page (onPaste w event))
    = if (n <=? l)%nat then Some (n - 1)%nat
      else if (i + l <? n)%nat then Some (i + l)%nat
      else focused (page w).
Proof.
  intros Hmnt Hi Hpos n l. subst n l.
  destruct (Nat.leb_spec (numberOfDigits (comp w))
              (length (clipboardText event))) as [Hfull|Hpart].
  - rewrite (onPaste_full w event (Z.of_nat i)) by done.
    cbn [page].
    replace (Z.of_nat (numberOfDigits (comp w)) - 1)%Z
      with (Z.of_nat (numberOfDigits (comp w) - 1)) by lia.
    rewrite (moveFocus_mounted _ (comp w)); [done|done|lia].
  - rewrite (onPaste_partial w event i) by done. cbn [page].
    destruct (Nat.ltb_spec (i + length (clipboardText event))
                (numberOfDigits (comp w))) as [Hin|Hout].
    + by rewrite (moveFocus_mounted _ (comp w)).
    + rewrite (moveFocus_beyond (comp w)); [done| |lia].
      by apply mounted_shows.
Qed.

(** X13: delivering the same paste event twice in a row, at a position
    in range, leaves the code and the page as after the first delivery. *)
Theorem onPaste_twice (w : world) (event : ClipboardEvent) :
  code_shape (comp w) →
  in_range (numberOfDigits (comp w)) (paste_index event) = true →
  onPaste (onPaste w event) event = onPaste w event.
Proof.
  intros Hshape Hin. unfold code_shape in Hshape.
  apply in_range_cases in Hin as [Hi|(i & Hi & Hpos)].
  { destruct (onPaste_NaN w event Hi) as [Hw _]. by rewrite !Hw. }
  destruct (Nat.leb_spec (numberOfDigits (comp w))
              (length (clipboardText event))) as [Hfull|Hpart].
  - rewrite (onPaste_full w event (Z.of_nat i)) by done.
    rewrite (onPaste_full _ event (Z.of_nat i)) by done.
    cbn [comp page numberOfDigits code]. by rewrite moveFocus_twice.
  - rewrite (onPaste_partial w event i) by done.
    rewrite (onPaste_partial _ event i) by done.
    cbn [comp page numberOfDigits code]. rewrite moveFocus_twice.
    do 2 f_equal.
    destruct (paste_loop_spec (clipboardText event) i
                (numberOfDigits (comp w) - i) i (code (comp w)))
      as (Hl & Hlo & Hhi); [lia | lia |].
    set (once := paste_loop _ _ _ _ (code (comp w))) in *.
    destruct (paste_loop_spec (clipboardText event) i
                (numberOfDigits (comp w) - i) i once)
      as (Hl' & Hlo' & Hhi'); [lia | lia |].
    apply list_eq. intros k.
    destruct (decide (k < i)%nat) as [Hk|Hk]; [by apply Hlo'|].
    destruct (decide (k < length once)%nat) as [Hkn|Hkn].
    + rewrite Hhi' by lia. rewrite Hhi by lia. done.
    + rewrite !lookup_ge_None_2 by lia. done.
Qed.

(** ** From the render to the handlers and back *)

Lemma PassCode_render_value (props : PassCodeProps) (st : state) :
  Forall (λ child, child = PassCodeInputNode) (children props) →
  PassCode_render props st =
    Value ((λ i, {| maxLength := 1;
                    inputMode :=
                      if default true (alphanumeric props)
                      then "text" else "numeric";
                    input_value := read (code st) i;
                    data_index := Some i;
                    input_onKeyDown := true;
                    input_onPaste := true |})
             <$> seq 0 (length (children props))).
Proof.
  intros Hall. unfold PassCode_render.
  rewrite Children_map_inputs by done.
  rewrite render_cells_under_provider. by rewrite <- list_fmap_compose.
Qed.

Lemma PassCode_render_Value_inv
  (props : PassCodeProps) (st : state) (els : list input) :
  PassCode_render props st = Value els →
  Forall (λ child, child = PassCodeInputNode) (children props).
Proof.
  intros Hr.
  destruct (children_all_or_other (children props)) as [Hall|Hin]; [done|].
  unfold PassCode_render in Hr. by rewrite Children_map_other in Hr.
Qed.

Lemma rendered_lookup
  (props : PassCodeProps) (st : state) (els : list input)
  (i : nat) (el : input) :
  PassCode_render props st = Value els →
  els !! i = Some el →
  (i < length (children props))%nat
  ∧ input_value el = read (code st) i
  ∧ dataset_index el = Int (Z.of_nat i)
  ∧ maxLength el = 1%nat.
Proof.
  intros Hr Hi. pose proof (PassCode_render_Value_inv _ _ _ Hr) as Hall.
  rewrite PassCode_render_value in Hr by done. injection Hr as <-.
  apply list_lookup_fmap_Some in Hi as (j & -> & Hj).
  apply lookup_seq in Hj as [-> Hlt]. done.
Qed.

(** X14: while the code has N slots of at most one code unit each and the
    caller has not added children, every rendered [<input>] receives a
    string value (never [undefined]) that fits its [maxLength]. *)
Theorem rendered_values_fit
  (props : PassCodeProps) (st : state) (els : list input) :
  cells_ok st →
  (length (children props) ≤ numberOfDigits st)%nat →
  PassCode_render props st = Value els →
  ∀ el, el ∈ els →
    ∃ s, input_value el = Str s ∧ (length s ≤ maxLength el)%nat.
Proof.
  intros [Hshape Hall] Hlen Hr el Hel. unfold code_shape in Hshape.
  apply list_elem_of_lookup in Hel as [i Hi].
  destruct (rendered_lookup _ _ _ _ _ Hr Hi) as (Hlt & Hv & _ & Hmax).
  rewrite Hv, Hmax. unfold read.
  destruct (code st !! i) as [v|] eqn:Hci.
  - pose proof (Forall_lookup_1 _ _ _ _ Hall Hci) as Hs. simpl.
    destruct v as [|[|u [|]]]; try done; eexists; split; try done; simpl; lia.
  - apply lookup_ge_None in Hci. lia.
Qed.

(** X15: a character typed on the [i]-th rendered cell shows up in the
    [i]-th cell of the next render, and every other cell shows what it
    showed before. *)
Theorem typed_character_is_shown
  (props : PassCodeProps) (w : world) (els : list input)
  (i : nat) (el : input) (event : KeyboardEvent) :
  PassCode_render props (comp w) = Value els →
  els !! i = Some el →
  (i < length (code (comp w)))%nat →
  metaKey event = false →
  length (key event) = 1%nat →
  target_index event = dataset_index el →
  ∃ els',
    PassCode_render props (comp (onKeyDown w event)) = Value els'
    ∧ input_value <$> els' !! i = Some (Str (key event))
    ∧ ∀ j, j ≠ i → input_value <$> els' !! j = input_value <$> els !! j.
Proof.
  intros Hr Hi Hin Hm Hk Ht.
  pose proof (PassCode_render_Value_inv _ _ _ Hr) as Hall.
  destruct (rendered_lookup _ _ _ _ _ Hr Hi) as (Hlt & _ & Htag & _).
  rewrite Htag in Ht.
  rewrite (onKeyDown_char w event i) by done. cbn [comp].
  rewrite PassCode_render_value in Hr by done. injection Hr as <-.
  rewrite PassCode_render_value by done.
  eexists. split; [reflexivity|]. cbn [code].
  unfold put_at. rewrite array_set_inside by done.
  split.
  - rewrite list_lookup_fmap, lookup_seq_lt by done. simpl.
    unfold read. by rewrite list_lookup_insert_eq.
  - intros j Hne. rewrite !list_lookup_fmap.
    destruct (seq 0 (length (children props)) !! j) as [j'|] eqn:Hj; [|done].
    apply lookup_seq in Hj as [-> _]. simpl.
    unfold read. by rewrite list_lookup_insert_ne.
Qed.

(** X16: if the caller renders more children than were mounted, the cell
    at position N exists, and a character typed there is appended to the
    code, which then has N+1 slots although the digit count is still N. *)
Theorem extra_child_grows_code
  (props : PassCodeProps) (st : state) (els : list input) :
  code_shape st →
  PassCode_render props st = Value els →
  (numberOfDigits st < length (children props))%nat →
  (Z.of_nat (numberOfDigits st) < 2 ^ 32 - 1)%Z →
  ∃ el,
    els !! numberOfDigits st = Some el
    ∧ ∀ event,
        metaKey event = false →
        length (key event) = 1%nat →
        target_index event = dataset_index el →
        next_code st (handleKeyDown st event) = code st ++ [Str (key event)]
        ∧ length (next_code st (handleKeyDown st event))
          = S (numberOfDigits st).
Proof.
  intros Hshape Hr Hmore Hsmall. unfold code_shape in Hshape.
  pose proof (PassCode_render_Value_inv _ _ _ Hr) as Hall.
  rewrite PassCode_render_value in Hr by done. injection Hr as <-.
  eexists. split.
  { rewrite list_lookup_fmap, lookup_seq_lt by done. reflexivity. }
  intros event Hm Hk Ht. unfold dataset_index in Ht; simpl in Ht.
  rewrite handleKeyDown_char by done. rewrite Ht.
  unfold next_code, put_at; simpl.
  rewrite array_set_grow by lia.
  replace (Z.to_nat (Z.of_nat (numberOfDigits st)) - length (code st))%nat
    with 0%nat by lia.
  split; [done|]. rewrite length_app. simpl. lia.
Qed.

(** X17: a paste of N or more code units with no high surrogate among the
    first N, at any numeric position, makes the code exactly those N
    one-unit strings and asks for focus on the last cell. *)
Theorem handlePaste_full_plain
  (st : state) (event : ClipboardEvent) (z : Z) :
  paste_index event = Int z →
  (numberOfDigits st ≤ length (clipboardText event))%nat →
  Forall (λ u, is_high_surrogate u = false)
    (take (numberOfDigits st) (clipboardText event)) →
  let t := handlePaste st event in
  next_code st t
    = (λ u, Str [u]) <$> take (numberOfDigits st) (clipboardText event)
  ∧ length (next_code st t) = numberOfDigits st
  ∧ focus_requests t = [Int (Z.of_nat (numberOfDigits st) - 1)].
Proof. apply handlePaste_full_no_surrogate. Qed.

(** X18: right after the mount the code has N empty one-unit-or-less
    slots, and the first render shows an empty string in every cell, cell
    [i] tagged with position [i]. *)
Theorem mount_renders_empty_cells (props : PassCodeProps) :
  Forall (λ child, child = PassCodeInputNode) (children props) →
  cells_ok (mount props)
  ∧ ∃ els,
      PassCode_render props (mount props) = Value els
      ∧ length els = numberOfDigits (mount props)
      ∧ ∀ i el, els !! i = Some el →
          input_value el = Str [] ∧ dataset_index el = Int (Z.of_nat i).
Proof.
  intros Hall. split.
  { destruct (mount_code props) as (_ & Hcode & Hshape).
    split; [done|]. rewrite Hcode. by apply Forall_replicate. }
  rewrite PassCode_render_value by done.
  eexists. split; [reflexivity|].
  split; [by rewrite length_fmap, length_seq|].
  intros i el Hi.
  apply list_lookup_fmap_Some in Hi as (j & -> & Hj).
  apply lookup_seq in Hj as [-> Hlt]. simpl. split; [|done].
  unfold read, Array_filled. by rewrite lookup_replicate_2.
Qed.

(** ** Witnesses *)

Lemma PassCode_render_inputs_witness :
  ∃ els,
    PassCode_render Cases.numeric4 Samples.code_12__ = Value els
    ∧ length els = 4%nat
    ∧ ∀ i, (i < 4)%nat →
        els !! i =
          Some {| maxLength := 1;
                  inputMode := "numeric";
                  input_value := read (code Samples.code_12__) i;
                  data_index := Some i;
                  input_onKeyDown := true;
                  input_onPaste := true |}.
Proof.
  apply (PassCode_render_inputs Cases.numeric4 Samples.code_12__).
  repeat constructor.
Defined.


Lemma events_keep_frame_witness :
  let w' := deliver_all Cases.world_empty Cases.session in
  numberOfDigits (comp w') = 4%nat
  ∧ container (page w') = container Samples.page4
  ∧ ∀ j, focused (page w') = Some j →
         focused Samples.page4 = Some j
         ∨ ∃ els, container Samples.page4 = Some els
                  ∧ els !! j = Some HTMLInputElement.
Proof. exact (events_keep_frame Cases.world_empty Cases.session). Defined.

Lemma tame_events_keep_cells_witness :
  cells_ok (comp Cases.world_empty)
  ∧ forallb (tame 4) Cases.session = true
  ∧ cells_ok (comp (deliver_all Cases.world_empty Cases.session)).
Proof.
  assert (Hok : cells_ok (comp Cases.world_empty)).
  { split; [reflexivity|]. repeat constructor. }
  split; [exact Hok|]. split; [reflexivity|].
  apply (tame_events_keep_cells Cases.world_empty Cases.session Hok).
  reflexivity.
Defined.

Lemma type_then_backspace_witness :
  let w1 := onKeyDown Cases.world_1___ (Samples.press "2" 1) in
  let w2 := onKeyDown w1 (Samples.press "Backspace" 2) in
  focused (page w1) = Some 2%nat
  ∧ comp w2 = comp Cases.world_1___
  ∧ focused (page w2) = Some 1%nat.
Proof.
  apply (type_then_backspace Cases.world_1___ (Samples.press "2" 1)
           (Samples.press "Backspace" 2) 1);
    try reflexivity.
  simpl. lia.
Defined.

Lemma type_in_last_cell_then_backspace_witness :
  let w := {| comp := Samples.code_123_; page := Samples.page4 |} in
  let w1 := onKeyDown w (Samples.press "4" 3) in
  let w2 := onKeyDown w1 (Samples.press "Backspace" 3) in
  page w1 = page w
  ∧ code (comp w1) !! 3%nat = Some (Str (lit "4"))
  ∧ code (comp w2) !! 3%nat = Some (Str [])
  ∧ code (comp w2) !! 2%nat = Some (Str [])
  ∧ (∀ k, (k < 2)%nat → code (comp w2) !! k = code (comp w) !! k)
  ∧ focused (page w2) = Some 2%nat.
Proof.
  intros w.
  apply (type_in_last_cell_then_backspace w (Samples.press "4" 3)
           (Samples.press "Backspace" 3) 2);
    reflexivity.
Defined.

Lemma typing_fills_from_witness :
  let ks := [lit "1"; lit "2"; lit "3"; lit "4"] in
  let w' := type_keys Cases.world_12__ (keys_from 0 ks) in
  code (comp w') = Str <$> ks
  ∧ join (code (comp w')) = lit "1234"
  ∧ no_empty (code (comp w')) = true.
Proof.
  intros ks.
  destruct (typing_fills_from Cases.world_12__ ks 0) as [_ Hall].
  - repeat constructor.
  - simpl. lia.
  - apply Hall; reflexivity.
Defined.

Lemma paste_of_nothing_erases_witness :
  let event := Samples.paste [] (Int 1) in
  next_code Samples.code_123_ (handlePaste Samples.code_123_ event)
    = [Str (lit "1"); Str []; Str []; Str []]
  ∧ focus_requests (handlePaste Samples.code_123_ event) = [Int 1].
Proof.
  apply (paste_of_nothing_erases Samples.code_123_
           (Samples.paste [] (Int 1)) 1);
    try reflexivity.
  simpl. lia.
Defined.

Lemma onPaste_focus_witness :
  focused Samples.page4 = Some 0%nat
  ∧ focused (page (onPaste Cases.world_empty
                     (Samples.paste (lit "12") (Int 0)))) = Some 2%nat
  ∧ focused (page (onPaste Cases.world_empty
                     (Samples.paste (lit "123") (Int 1)))) = Some 0%nat
  ∧ focused (page (onPaste Cases.world_empty
                     (Samples.paste (lit "12345") (Int 1)))) = Some 3%nat.
Proof.
  split; [reflexivity|]. split; [|split].
  - apply (onPaste_focus Cases.world_empty
             (Samples.paste (lit "12") (Int 0)) 0);
      [reflexivity | reflexivity | simpl; lia].
  - apply (onPaste_focus Cases.world_empty
             (Samples.paste (lit "123") (Int 1)) 1);
      [reflexivity | reflexivity | simpl; lia].
  - apply (onPaste_focus Cases.world_empty
             (Samples.paste (lit "12345") (Int 1)) 1);
      [reflexivity | reflexivity | simpl; lia].
Defined.

Lemma onPaste_twice_witness :
  let event := Samples.paste (lit "7") (Int 2) in
  onPaste (onPaste Cases.world_12__ event) event
    = onPaste Cases.world_12__ event.
Proof.
  apply (onPaste_twice Cases.world_12__ (Samples.paste (lit "7") (Int 2)));
    reflexivity.
Defined.

Lemma rendered_values_fit_witness :
  let els := [Cases.text_input 0 (Str (lit "1"));
              Cases.text_input 1 (Str (lit "2"));
              Cases.text_input 2 (Str []);
              Cases.text_input 3 (Str [])] in
  PassCode_render Samples.cells4 Samples.code_12__ = Value els
  ∧ ∀ el, el ∈ els →
      ∃ s, input_value el = Str s ∧ (length s ≤ maxLength el)%nat.
Proof.
  intros els. split; [reflexivity|].
  apply (rendered_values_fit Samples.cells4 Samples.code_12__ els).
  - split; [reflexivity|]. repeat constructor.
  - simpl. lia.
  - reflexivity.
Defined.

Lemma typed_character_is_shown_witness :
  let els := [Cases.text_input 0 (Str (lit "1"));
              Cases.text_input 1 (Str (lit "2"));
              Cases.text_input 2 (Str []);
              Cases.text_input 3 (Str [])] in
  let event := Samples.press "3" 2 in
  ∃ els',
    PassCode_render Samples.cells4 (comp (onKeyDown Cases.world_12__ event))
      = Value els'
    ∧ input_value <$> els' !! 2%nat = Some (Str (lit "3"))
    ∧ ∀ j, j ≠ 2%nat → input_value <$> els' !! j = input_value <$> els !! j.
Proof.
  intros els event.
  apply (typed_character_is_shown Samples.cells4 Cases.world_12__ els 2
           (Cases.text_input 2 (Str [])) event);
    try reflexivity.
  simpl. lia.
Defined.

Lemma extra_child_grows_code_witness :
  let els := [Cases.text_input 0 (Str (lit "1"));
              Cases.text_input 1 (Str (lit "2"));
              Cases.text_input 2 (Str []);
              Cases.text_input 3 (Str []);
              Cases.text_input 4 Undefined] in
  PassCode_render Cases.cells5 Samples.code_12__ = Value els
  ∧ ∃ el,
      els !! 4%nat = Some el
      ∧ ∀ event,
          metaKey event = false →
          length (key event) = 1%nat →
          target_index event = dataset_index el →
          next_code Samples.code_12__ (handleKeyDown Samples.code_12__ event)
            = code Samples.code_12__ ++ [Str (key event)]
          ∧ length (next_code Samples.code_12__
                      (handleKeyDown Samples.code_12__ event)) = 5%nat.
Proof.
  intros els. split; [reflexivity|].
  apply (extra_child_grows_code Cases.cells5 Samples.code_12__ els);
    try reflexivity.
  simpl. lia.
Defined.

Lemma handlePaste_full_plain_witness :
  let st := Samples.code_12__ in
  let event := Samples.paste (lit "98765") (Int 3) in
  let t := handlePaste st event in
  next_code st t = [Str (lit "9"); Str (lit "8"); Str (lit "7"); Str (lit "6")]
  ∧ length (next_code st t) = 4%nat
  ∧ focus_requests t = [Int 3].
Proof.
  intros st event t.
  apply (handlePaste_full_plain st event 3);
    [reflexivity | simpl; lia |].
  repeat constructor.
Defined.

Lemma mount_renders_empty_cells_witness :
  cells_ok (mount Samples.cells4)
  ∧ ∃ els,
      PassCode_render Samples.cells4 (mount Samples.cells4) = Value els
      ∧ length els = 4%nat
      ∧ ∀ i el, els !! i = Some el →
          input_value el = Str [] ∧ dataset_index el = Int (Z.of_nat i).
Proof.
  apply (mount_renders_empty_cells Samples.cells4). repeat constructor.
Defined.
